(** * Schema validation of data frames: the pandas and polars backends

    A shallow embedding of
      - [patrol/validators.py]               (the validator data classes),
      - [patrol/_pandas/validation.py]       (pandas schema check),
      - [patrol/_pandas/validator_impl.py]   (pandas value validators),
      - [patrol/_polars/validation.py]       (polars schema check),
      - [patrol/_polars/validator_impl.py]   (polars value validators),
      - [pavise/polars.py]                   (the typed [DataFrame] wrapper),
    followed by the properties of the schema validator.

    Python exceptions are modelled by an error monad: a function that
    returns [None] in Python returns [Return tt] here, and a [raise]
    becomes [Raise e].

    A table is the ordered list of its named columns, a column a dtype
    tag with its entries, and a schema the ordered items of the
    dictionary that [get_type_hints] returns.  An entry is missing, a
    number or a string; the numbers held by a column and the bounds of a
    [Range] are integers of [Z], so floating-point rounding, NaN ordering
    and infinities are outside the model.  The polars dtypes and the
    predicates over them are those of the sources; of pandas the backend
    only uses six predicates of [pd.api.types], which are kept abstract
    (class [Pandas.Api]) and given a concrete model ([PandasModel]) for
    running the validator on the tables of the test suite. *)

From Stdlib Require Import ZArith List String Bool Lia Permutation.
Import ListNotations.

Local Open Scope string_scope.
Local Open Scope list_scope.
Local Open Scope Z_scope.

(* ===================================================================== *)
(** ** Python results *)
(* ===================================================================== *)

Module Py.

(** The outcome of a call: a value, or a raised exception. *)
Inductive result (E A : Type) : Type :=
| Return (a : A)
| Raise (e : E).

Arguments Return {E A} a.
Arguments Raise {E A} e.

Definition bind {E A B : Type} (m : result E A) (k : A -> result E B)
  : result E B :=
  match m with
  | Return a => k a
  | Raise e => Raise e
  end.

(** [for x in xs: body(x)], stopping at the first exception. *)
Fixpoint for_each {E A : Type} (body : A -> result E unit) (xs : list A)
  : result E unit :=
  match xs with
  | [] => Return tt
  | x :: rest => bind (body x) (fun _ => for_each body rest)
  end.

(** An element-wise operation over a column that may raise on an element:
    the first exception aborts the whole operation. *)
Fixpoint map_each {E A B : Type} (f : A -> result E B) (xs : list A)
  : result E (list B) :=
  match xs with
  | [] => Return []
  | x :: rest =>
      bind (f x) (fun y => bind (map_each f rest) (fun ys => Return (y :: ys)))
  end.

(** [isinstance(x, object)]: every Python value is an instance of
    [object], whatever it is. *)
Definition isinstance_object {A : Type} (x : A) : bool := true.

End Py.

Import Py.

Declare Scope py_scope.
Delimit Scope py_scope with py.
Notation "x <- m ;; k" := (Py.bind m (fun x => k))
  (at level 61, m at next level, right associativity) : py_scope.
Notation "m ;; k" := (Py.bind m (fun _ => k))
  (at level 61, right associativity) : py_scope.
Local Open Scope py_scope.

(* ===================================================================== *)
(** ** patrol/validators.py *)
(* ===================================================================== *)

Module Validators.

(** [@dataclass class Range: min: float; max: float] *)
Record Range : Type := mkRange { min : Z; max : Z }.

(** An item of an [Annotated[...]] metadata list.  [Unique] is the
    field-less data class; [Unrecognized] is any other Python object (the
    dispatcher of each backend tests [isinstance] against the two data
    classes and has an [else] branch for the rest), of which the model
    keeps the name of its type and whether it can be hashed. *)
Inductive validator : Type :=
| IsRange (r : Range)
| Unique
| Unrecognized (type_name : string) (hashable : bool).

(** [hash(v)] succeeds.  A [@dataclass] with the default [eq=True] and
    without [frozen=True] has [__hash__ = None]: the instances of [Range]
    and [Unique] cannot be hashed. *)
Definition validator_hashable (v : validator) : bool :=
  match v with
  | IsRange _ | Unique => false
  | Unrecognized _ hashable => hashable
  end.

End Validators.

Import Validators.

(* ===================================================================== *)
(** ** Type annotations and their decomposition *)
(* ===================================================================== *)

Module Typing.

(** The classes that can stand as a column's declared type: the seven keys
    of [TYPE_CHECKERS], [type(None)], and any other class. *)
Inductive pyclass : Type :=
| py_int | py_float | py_str | py_bool
| py_datetime | py_date | py_timedelta
| NoneType
| py_class (name : string).

Section Annotations.

(** The backend's own dtype classes, which a schema may name directly
    ([pd.CategoricalDtype], [pl.Categorical], ...). *)
Variable native : Type.

(** What [get_type_hints(schema, include_extras=True)] can yield for a
    column: a class, [Annotated[inner, *metadata]], [Union[*args]]
    ([Optional[T]] is [Union[T, None]]), or any other subscripted form
    ([NotRequired[T]], [list[T]], ...), for which [get_origin] is neither
    [Annotated] nor [Union]. *)
#[warnings="-register-all"]
Inductive annotation : Type :=
| Class (c : pyclass)
| Native (n : native)
| Annotated (inner : annotation) (metadata : list validator)
| Union (args : list annotation)
| Subscripted (origin : string) (args : list annotation).

Definition Optional (t : annotation) : annotation :=
  Union [t; Class NoneType].

(** [x is type(None)] *)
Definition is_NoneType (a : annotation) : bool :=
  match a with
  | Class NoneType => true
  | _ => false
  end.

(** [_extract_type_and_validators(annotation)], the same text in
    [_pandas/validation.py] and [_polars/validation.py]:
<<
    validators = []
    is_optional = False
    if get_origin(annotation) is Annotated:
        args = get_args(annotation)
        base_type = args[0]
        validators = list(args[1:])
        annotation = base_type
    origin = get_origin(annotation)
    if origin is Union:
        args = get_args(annotation)
        if len(args) == 2 and type(None) in args:
            is_optional = True
            base_type = args[0] if args[1] is type(None) else args[1]
            return base_type, validators, is_optional
    return annotation, validators, is_optional
>> *)
Definition _extract_type_and_validators (annotation0 : annotation)
  : annotation * list validator * bool :=
  let '(annotation, validators) :=
    match annotation0 with
    | Annotated base_type metadata => (base_type, metadata)
    | _ => (annotation0, [])
    end in
  match annotation with
  | Union [arg0; arg1] =>
      if is_NoneType arg0 || is_NoneType arg1 then
        let base_type := if is_NoneType arg1 then arg0 else arg1 in
        (base_type, validators, true)
      else (annotation, validators, false)
  | _ => (annotation, validators, false)
  end.

(** [hash(annotation)] succeeds: a class hashes; the typing forms hash
    their arguments, and the metadata wrapper its metadata as well. *)
Fixpoint hashable (a : annotation) : bool :=
  match a with
  | Class _ | Native _ => true
  | Annotated inner metadata =>
      hashable inner && forallb validator_hashable metadata
  | Union args => forallb hashable args
  | Subscripted _ args => forallb hashable args
  end.

(** A type that is neither a metadata wrapper nor a union. *)
Definition is_concrete (a : annotation) : bool :=
  match a with
  | Class _ | Native _ => true
  | Annotated _ _ | Union _ | Subscripted _ _ => false
  end.

End Annotations.

Arguments Class {native} c.
Arguments Native {native} n.
Arguments Annotated {native} inner metadata.
Arguments Union {native} args.
Arguments Subscripted {native} origin args.
Arguments Optional {native} t.
Arguments is_NoneType {native} a.
Arguments is_concrete {native} a.
Arguments hashable {native} a.
Arguments _extract_type_and_validators {native} annotation0.

(** A schema: the ordered items of the [get_type_hints] dictionary. *)
Definition schema (native : Type) : Type := list (string * annotation native).

End Typing.

Import Typing.

(* ===================================================================== *)
(** ** Columns, tables and exceptions shared by the two backends *)
(* ===================================================================== *)

Module Frames.

(** A non-missing entry of a column. *)
Inductive scalar : Type :=
| Num (z : Z)
| Text (s : string).

Definition scalar_eqb (x y : scalar) : bool :=
  match x, y with
  | Num a, Num b => Z.eqb a b
  | Text s, Text t => String.eqb s t
  | _, _ => false
  end.

(** An entry of a column; [None] is the missing value (pandas [NaN] /
    [None] / [NA], polars [null]). *)
Definition cell : Type := option scalar.

Definition cell_eqb (x y : cell) : bool :=
  match x, y with
  | None, None => true
  | Some a, Some b => scalar_eqb a b
  | _, _ => false
  end.

(** A column: its dtype tag and its entries. *)
Record Series (D : Type) : Type := mkSeries { dtype : D; values : list cell }.

Arguments mkSeries {D} dtype values.
Arguments dtype {D} s.
Arguments values {D} s.

(** A table: its columns, in order. *)
Definition DataFrame (D : Type) : Type := list (string * Series D).

(** [df.columns] *)
Definition columns {D : Type} (df : DataFrame D) : list string :=
  map fst df.

(** [name in names] on a list of strings *)
Definition contains (names : list string) (name : string) : bool :=
  existsb (String.eqb name) names.

(** The column that [df[col_name]] selects, if there is one. *)
Fixpoint lookup {D : Type} (df : DataFrame D) (col_name : string)
  : option (Series D) :=
  match df with
  | [] => None
  | (name, series) :: rest =>
      if String.eqb col_name name then Some series else lookup rest col_name
  end.

(** [mask.any()] on a Boolean column without missing entries. *)
Definition any (mask : list bool) : bool := existsb (fun b => b) mask.

(** The non-missing entries of a column. *)
Fixpoint non_null (cells : list cell) : list scalar :=
  match cells with
  | [] => []
  | Some v :: rest => v :: non_null rest
  | None :: rest => non_null rest
  end.

(** How many entries of a column are missing. *)
Definition missing (cells : list cell) : nat :=
  List.length (filter (fun c => match c with None => true | Some _ => false end)
                      cells).

(** A column of numbers: [None] entries are missing values. *)
Definition numbers (entries : list (option Z)) : list cell :=
  map (option_map Num) entries.

(** The Boolean column that a comparison yields on a column of numbers:
    in pandas a missing entry compares false, in polars it compares to
    null. *)
Definition pandas_mask (test : Z -> bool) (entries : list (option Z))
  : list bool :=
  map (fun entry => match entry with Some z => test z | None => false end)
      entries.

Definition polars_mask (test : Z -> bool) (entries : list (option Z))
  : list (option bool) :=
  map (option_map test) entries.

Section Exceptions.

Variables native D : Type.

(** The messages of the exceptions the validators raise, one constructor
    per f-string of the sources. *)
Inductive message : Type :=
| Missing_column (col_name : string)
    (* f"Missing column: {col_name}" *)
| Unsupported_type (base_type : annotation native)
    (* f"Unsupported type: {base_type}" *)
| Unhashable_type
    (* Python's own "unhashable type: ..." *)
| Expected_got (col_name : string) (base_type : annotation native) (col_dtype : D)
    (* f"Column '{col_name}' expected {base_type.__name__}, got {col_dtype}" *)
| Expected_class_got (col_name : string) (base_type : native) (col_dtype : D)
    (* f"Column '{col_name}' expected {base_tname}, got {col_tname}" *)
| Non_optional_nulls (col_name : string)
    (* f"Column '{col_name}' is non-optional but contains null values" *)
| Must_be_in_range (col_name : string) (min max : Z)
    (* f"Column '{col_name}': values must be in range [{min}, {max}]" *)
| Duplicate_values (col_name : string)
    (* f"Column '{col_name}': contains duplicate values" *)
| Unknown_validator (v : validator)
    (* f"Unknown validator type: {type(validator)}" *)
| Unexpected_columns (names : list string).
    (* strict mode: the columns of the table that the schema lacks *)

(** What the data-frame library itself raises. *)
Inductive library_error : Type :=
| No_such_column (col_name : string)   (* [df[col_name]] on an absent column *)
| Not_comparable.                      (* [series < bound] on a text entry *)

Inductive exn : Type :=
| ValueError (m : message)
| TypeError (m : message)
| ValidationError (m : message)   (* [pavise.exceptions.ValidationError] *)
| LibraryError (e : library_error).

(** What [if base_type not in TYPE_CHECKERS: raise ValueError(...)]
    raises for a base type that is no key of the dictionary: the
    membership test hashes [base_type] first, and Python raises a
    [TypeError] of its own when that fails. *)
Definition not_in_TYPE_CHECKERS (base_type : annotation native) : exn :=
  if hashable base_type then ValueError (Unsupported_type base_type)
  else TypeError Unhashable_type.

(** [df[col_name]] *)
Definition getitem (df : DataFrame D) (col_name : string)
  : result exn (Series D) :=
  match lookup df col_name with
  | Some series => Return series
  | None => Raise (LibraryError (No_such_column col_name))
  end.

End Exceptions.

Arguments Missing_column {native D} col_name.
Arguments Unsupported_type {native D} base_type.
Arguments Unhashable_type {native D}.
Arguments Expected_got {native D} col_name base_type col_dtype.
Arguments Expected_class_got {native D} col_name base_type col_dtype.
Arguments Non_optional_nulls {native D} col_name.
Arguments Must_be_in_range {native D} col_name min max.
Arguments Duplicate_values {native D} col_name.
Arguments Unknown_validator {native D} v.
Arguments Unexpected_columns {native D} names.
Arguments ValueError {native D} m.
Arguments TypeError {native D} m.
Arguments ValidationError {native D} m.
Arguments LibraryError {native D} e.
Arguments getitem {native D} df col_name.
Arguments not_in_TYPE_CHECKERS {native D} base_type.

End Frames.

Import Frames.

(* ===================================================================== *)
(** ** The pandas backend *)
(* ===================================================================== *)

Module Pandas.

(** The argument of a [pd.api.types.is_*_dtype] predicate: the sources
    pass a column ([type_checker(df[col_name])]) in one place and a dtype
    ([is_float_dtype(col_dtype)]) in another. *)
Inductive arr_or_dtype (D : Type) : Type :=
| arr (series : Series D)
| dt (col_dtype : D).

Arguments arr {D} series.
Arguments dt {D} col_dtype.

(** What the backend uses of pandas: the dtypes, the subclasses of
    [pd.api.extensions.ExtensionDtype] a schema may name, the test
    [type(col_dtype) is base_type], and the six predicates of
    [pd.api.types] that [TYPE_CHECKERS] refers to. *)
Class Api : Type := {
  Dtype : Type;
  ExtensionDtype : Type;
  type_is : Dtype -> ExtensionDtype -> bool;
  is_integer_dtype : arr_or_dtype Dtype -> bool;
  is_float_dtype : arr_or_dtype Dtype -> bool;
  is_string_dtype : arr_or_dtype Dtype -> bool;
  is_bool_dtype : arr_or_dtype Dtype -> bool;
  is_datetime64_any_dtype : arr_or_dtype Dtype -> bool;
  is_timedelta64_dtype : arr_or_dtype Dtype -> bool
}.

Section Backend.

Context {pd : Api}.

Definition annotation : Type := Typing.annotation ExtensionDtype.
Definition exn : Type := Frames.exn ExtensionDtype Dtype.

(** *** _pandas/validator_impl.py *)

(** One entry of [series < bound]: a missing entry compares false, a text
    entry cannot be compared with a number. *)
Definition lt (bound : Z) (c : cell) : result exn bool :=
  match c with
  | None => Return false
  | Some (Num z) => Return (z <? bound)
  | Some (Text _) => Raise (LibraryError Not_comparable)
  end.

(** One entry of [series > bound]. *)
Definition gt (bound : Z) (c : cell) : result exn bool :=
  match c with
  | None => Return false
  | Some (Num z) => Return (bound <? z)
  | Some (Text _) => Raise (LibraryError Not_comparable)
  end.

(** [if (series < validator.min).any() or (series > validator.max).any():
       raise ValueError(...)] *)
Definition _validate_range (series : Series Dtype) (validator : Range)
    (col_name : string) : result exn unit :=
  below <- map_each (lt (min validator)) (values series) ;;
  if any below then
    Raise (ValueError (Must_be_in_range col_name (min validator) (max validator)))
  else
    above <- map_each (gt (max validator)) (values series) ;;
    if any above then
      Raise (ValueError (Must_be_in_range col_name (min validator) (max validator)))
    else Return tt.

(** [series.duplicated()]: an entry is marked when an equal entry stands
    before it; pandas takes two missing entries to be equal here. *)
Fixpoint duplicated_after (seen : list cell) (cells : list cell) : list bool :=
  match cells with
  | [] => []
  | c :: rest => existsb (cell_eqb c) seen :: duplicated_after (c :: seen) rest
  end.

Definition duplicated (series : Series Dtype) : list bool :=
  duplicated_after [] (values series).

(** [if series.duplicated().any(): raise ValueError(...)] *)
Definition _validate_unique (series : Series Dtype) (col_name : string)
  : result exn unit :=
  if any (duplicated series) then Raise (ValueError (Duplicate_values col_name))
  else Return tt.

Definition apply_validator (series : Series Dtype) (validator : validator)
    (col_name : string) : result exn unit :=
  match validator with
  | IsRange r => _validate_range series r col_name
  | Unique => _validate_unique series col_name
  | Unrecognized _ _ => Raise (ValueError (Unknown_validator validator))
  end.

(** *** _pandas/validation.py *)

(** The dictionary [TYPE_CHECKERS]; [None] is for a [base_type] that is
    no key of it. *)
Definition TYPE_CHECKERS (base_type : annotation)
  : option (arr_or_dtype Dtype -> bool) :=
  match base_type with
  | Class py_int => Some is_integer_dtype
  | Class py_float => Some is_float_dtype
  | Class py_str => Some is_string_dtype
  | Class py_bool => Some is_bool_dtype
  | Class py_datetime => Some is_datetime64_any_dtype
  | Class py_date => Some is_datetime64_any_dtype
  | Class py_timedelta => Some is_timedelta64_dtype
  | _ => None
  end.

(** [base_type is int], [base_type is str] *)
Definition is_int (base_type : annotation) : bool :=
  match base_type with Class py_int => true | _ => false end.

Definition is_str (base_type : annotation) : bool :=
  match base_type with Class py_str => true | _ => false end.

Definition _check_column_exists (df : DataFrame Dtype) (col_name : string)
  : result exn unit :=
  if negb (contains (columns df) col_name) then
    Raise (ValueError (Missing_column col_name))
  else Return tt.

(** The dtype test of [_check_column_type] for a base type found in
    [TYPE_CHECKERS]:
<<
    if not type_checker(df[col_name]):
        if is_optional and base_type is int and pd.api.types.is_float_dtype(col_dtype):
            pass
        elif is_optional and base_type is str and isinstance(col_dtype, object):
            pass
        else:
            raise TypeError(...)
>> *)
Definition check_dtype (type_checker : arr_or_dtype Dtype -> bool)
    (series : Series Dtype) (col_name : string) (base_type : annotation)
    (is_optional : bool) : result exn unit :=
  let col_dtype := dtype series in
  if negb (type_checker (arr series)) then
    if is_optional && is_int base_type && is_float_dtype (dt col_dtype) then
      Return tt
    else if is_optional && is_str base_type && isinstance_object col_dtype then
      Return tt
    else Raise (TypeError (Expected_got col_name base_type col_dtype))
  else Return tt.

Definition _check_column_type (df : DataFrame Dtype) (col_name : string)
    (expected_type : annotation) : result exn unit :=
  let '(base_type, validators, is_optional) :=
    _extract_type_and_validators expected_type in
  match base_type with
  | Native ext =>
      (* isinstance(base_type, type) and issubclass(base_type, ExtensionDtype) *)
      series <- getitem df col_name ;;
      let col_dtype := dtype series in
      if negb (type_is col_dtype ext) then
        Raise (TypeError (Expected_class_got col_name ext col_dtype))
      else
        for_each (fun validator => apply_validator series validator col_name)
                 validators
  | _ =>
      match TYPE_CHECKERS base_type with
      | None => Raise (not_in_TYPE_CHECKERS base_type)
      | Some type_checker =>
          series <- getitem df col_name ;;
          check_dtype type_checker series col_name base_type is_optional ;;
          for_each (fun validator => apply_validator series validator col_name)
                   validators
      end
  end.

(** The body of the loop of [validate_dataframe]. *)
Definition check_column (df : DataFrame Dtype)
    (item : string * annotation) : result exn unit :=
  let '(col_name, col_type) := item in
  _check_column_exists df col_name ;;
  _check_column_type df col_name col_type.

Definition validate_dataframe (df : DataFrame Dtype)
    (schema : Typing.schema ExtensionDtype) : result exn unit :=
  for_each (check_column df) schema.

End Backend.

End Pandas.

(** A model of pandas itself on the dtypes that the tests of the
    repository build, used to run the validator on concrete tables. *)
Module PandasModel.

Inductive dtype : Type :=
| int64 | float64 | bool_ | object_ | datetime64_ns | timedelta64_ns
| category | Int64 | string_.

Inductive extension_class : Type :=
| CategoricalDtype | Int64Dtype | StringDtype.

(** [type(col_dtype) is base_type]; the class of a NumPy dtype is no
    subclass of [ExtensionDtype]. *)
Definition type_is (d : dtype) (c : extension_class) : bool :=
  match d, c with
  | category, CategoricalDtype => true
  | Int64, Int64Dtype => true
  | string_, StringDtype => true
  | _, _ => false
  end.

Definition dtype_of (x : Pandas.arr_or_dtype dtype) : dtype :=
  match x with
  | Pandas.arr series => Frames.dtype series
  | Pandas.dt d => d
  end.

Definition is_integer_dtype (x : Pandas.arr_or_dtype dtype) : bool :=
  match dtype_of x with int64 | Int64 => true | _ => false end.

Definition is_float_dtype (x : Pandas.arr_or_dtype dtype) : bool :=
  match dtype_of x with float64 => true | _ => false end.

Definition is_text (c : cell) : bool :=
  match c with Some (Text _) => true | _ => false end.

(** On a column of dtype [object], [is_string_dtype] inspects the entries
    and accepts the column only when every one of them is a string; a
    missing entry is not a string. *)
Definition is_string_dtype (x : Pandas.arr_or_dtype dtype) : bool :=
  match x with
  | Pandas.arr series =>
      match Frames.dtype series with
      | string_ => true
      | object_ => forallb is_text (values series)
      | _ => false
      end
  | Pandas.dt d => match d with string_ | object_ => true | _ => false end
  end.

Definition is_bool_dtype (x : Pandas.arr_or_dtype dtype) : bool :=
  match dtype_of x with bool_ => true | _ => false end.

Definition is_datetime64_any_dtype (x : Pandas.arr_or_dtype dtype) : bool :=
  match dtype_of x with datetime64_ns => true | _ => false end.

Definition is_timedelta64_dtype (x : Pandas.arr_or_dtype dtype) : bool :=
  match dtype_of x with timedelta64_ns => true | _ => false end.

Definition pandas : Pandas.Api :=
  {| Pandas.Dtype := dtype;
     Pandas.ExtensionDtype := extension_class;
     Pandas.type_is := type_is;
     Pandas.is_integer_dtype := is_integer_dtype;
     Pandas.is_float_dtype := is_float_dtype;
     Pandas.is_string_dtype := is_string_dtype;
     Pandas.is_bool_dtype := is_bool_dtype;
     Pandas.is_datetime64_any_dtype := is_datetime64_any_dtype;
     Pandas.is_timedelta64_dtype := is_timedelta64_dtype |}.

End PandasModel.

(* ===================================================================== *)
(** ** The polars backend *)
(* ===================================================================== *)

Module pl.

(** The dtype classes of polars ([pl.Int8], [pl.Datetime], ...). *)
Inductive DataTypeClass : Type :=
| Int8 | Int16 | Int32 | Int64 | UInt8 | UInt16 | UInt32 | UInt64
| Float32 | Float64 | Utf8 | Boolean
| Datetime | Date | Duration | Time
| Categorical | Object | Null.

Definition DataTypeClass_eq_dec (a b : DataTypeClass) : {a = b} + {a <> b}.
Proof. decide equality. Defined.

Inductive TimeUnit : Type := ns | us | ms.

(** A dtype, as [series.dtype] returns it: an instance of a dtype class.
    [hasattr(dtype, "time_unit")] is [time_unit dtype] being [Some _]; in
    polars the instances of [Datetime] and of [Duration] carry this
    attribute. *)
Record DataType : Type := mkDataType {
  class_of : DataTypeClass;
  time_unit : option TimeUnit;
  time_zone : option string
}.

(** [dtype == cls], a dtype compared with a dtype class. *)
Definition equals (d : DataType) (cls : DataTypeClass) : bool :=
  if DataTypeClass_eq_dec (class_of d) cls then true else false.

(** An instance of a class without parameters, [pl.Datetime(time_unit,
    time_zone)] and [pl.Duration(time_unit)]. *)
Definition plain (cls : DataTypeClass) : DataType :=
  mkDataType cls None None.


Definition duration (tu : TimeUnit) : DataType :=
  mkDataType Duration (Some tu) None.

(** [hasattr(dtype, "time_unit")] *)
Definition hasattr_time_unit (d : DataType) : bool :=
  match time_unit d with Some _ => true | None => false end.

End pl.

Module Polars.

Definition annotation : Type := Typing.annotation pl.DataTypeClass.
Definition schema : Type := Typing.schema pl.DataTypeClass.
Definition exn : Type := Frames.exn pl.DataTypeClass pl.DataType.
Definition Series : Type := Frames.Series pl.DataType.
Definition DataFrame : Type := Frames.DataFrame pl.DataType.

(** *** _polars/validator_impl.py *)

(** One entry of [series < bound]: the comparison of a null is null, a
    text entry cannot be compared with a number. *)
Definition lt (bound : Z) (c : cell) : result exn (option bool) :=
  match c with
  | None => Return None
  | Some (Num z) => Return (Some (z <? bound))
  | Some (Text _) => Raise (LibraryError Not_comparable)
  end.

(** One entry of [series > bound]. *)
Definition gt (bound : Z) (c : cell) : result exn (option bool) :=
  match c with
  | None => Return None
  | Some (Num z) => Return (Some (bound <? z))
  | Some (Text _) => Raise (LibraryError Not_comparable)
  end.

(** [mask.any()] on a Boolean column: nulls are ignored. *)
Definition any (mask : list (option bool)) : bool :=
  existsb (fun entry => match entry with Some true => true | _ => false end)
          mask.

(** [series.null_count()] *)
Definition null_count (series : Series) : nat := missing (values series).

(** [if (series < validator.min).any() or (series > validator.max).any():
       raise ValueError(...)] *)
Definition _validate_range (series : Series) (validator : Range)
    (col_name : string) : result exn unit :=
  below <- map_each (lt (min validator)) (values series) ;;
  if any below then
    Raise (ValueError (Must_be_in_range col_name (min validator) (max validator)))
  else
    above <- map_each (gt (max validator)) (values series) ;;
    if any above then
      Raise (ValueError (Must_be_in_range col_name (min validator) (max validator)))
    else Return tt.

(** How many entries of a column equal [c]; two nulls are equal. *)
Definition occurrences (c : cell) (cells : list cell) : nat :=
  List.length (filter (cell_eqb c) cells).

(** [series.is_duplicated()]: an entry is marked when its value occurs
    more than once in the column; polars groups the nulls of a column
    together like the occurrences of any other value. *)
Definition is_duplicated (series : Series) : list bool :=
  map (fun c => (1 <? occurrences c (values series))%nat) (values series).

(** [if series.is_duplicated().any(): raise ValueError(...)] *)
Definition _validate_unique (series : Series) (col_name : string)
  : result exn unit :=
  if Frames.any (is_duplicated series) then
    Raise (ValueError (Duplicate_values col_name))
  else Return tt.

Definition apply_validator (series : Series) (validator : validator)
    (col_name : string) : result exn unit :=
  match validator with
  | IsRange r => _validate_range series r col_name
  | Unique => _validate_unique series col_name
  | Unrecognized _ _ => Raise (ValueError (Unknown_validator validator))
  end.

(** *** _polars/validation.py *)

Definition _is_datetime_dtype (dtype : pl.DataType) : bool :=
  if pl.equals dtype pl.Datetime then true
  else if pl.hasattr_time_unit dtype then true
  else false.

(** The dictionary [TYPE_CHECKERS]; [None] is for a [base_type] that is
    no key of it. *)
Definition TYPE_CHECKERS (base_type : annotation)
  : option (pl.DataType -> bool) :=
  match base_type with
  | Class py_int =>
      Some (fun dtype =>
              existsb (pl.equals dtype)
                [pl.Int8; pl.Int16; pl.Int32; pl.Int64;
                 pl.UInt8; pl.UInt16; pl.UInt32; pl.UInt64])
  | Class py_float =>
      Some (fun dtype => existsb (pl.equals dtype) [pl.Float32; pl.Float64])
  | Class py_str => Some (fun dtype => pl.equals dtype pl.Utf8)
  | Class py_bool => Some (fun dtype => pl.equals dtype pl.Boolean)
  | Class py_datetime => Some _is_datetime_dtype
  | Class py_date => Some (fun dtype => pl.equals dtype pl.Date)
  | Class py_timedelta => Some (fun dtype => pl.equals dtype pl.Duration)
  | _ => None
  end.

Definition _check_column_exists (df : DataFrame) (col_name : string)
  : result exn unit :=
  if negb (contains (columns df) col_name) then
    Raise (ValueError (Missing_column col_name))
  else Return tt.

Definition _check_column_type (df : DataFrame) (col_name : string)
    (expected_type : annotation) : result exn unit :=
  let '(base_type, validators, is_optional) :=
    _extract_type_and_validators expected_type in
  match base_type with
  | Native cls =>
      (* isinstance(base_type, type) and issubclass(base_type, pl.DataType) *)
      series <- getitem df col_name ;;
      let col_dtype := dtype series in
      if negb (pl.equals col_dtype cls) then
        Raise (TypeError (Expected_got col_name base_type col_dtype))
      else
        for_each (fun validator => apply_validator series validator col_name)
                 validators
  | _ =>
      match TYPE_CHECKERS base_type with
      | None => Raise (not_in_TYPE_CHECKERS base_type)
      | Some type_checker =>
          series <- getitem df col_name ;;
          let col_dtype := dtype series in
          if negb (type_checker col_dtype) then
            Raise (TypeError (Expected_got col_name base_type col_dtype))
          else if negb is_optional && (0 <? null_count series)%nat then
            Raise (TypeError (Non_optional_nulls col_name))
          else
            for_each (fun validator => apply_validator series validator col_name)
                     validators
      end
  end.

(** The body of the loop of [validate_dataframe]. *)
Definition check_column (df : DataFrame) (item : string * annotation)
  : result exn unit :=
  let '(col_name, col_type) := item in
  _check_column_exists df col_name ;;
  _check_column_type df col_name col_type.

Definition validate_dataframe (df : DataFrame) (schema : schema)
  : result exn unit :=
  for_each (check_column df) schema.

End Polars.

(* ===================================================================== *)
(** ** pavise/polars.py: the typed wrapper *)
(* ===================================================================== *)

Module Pavise.

(** The columns of the table that the schema does not declare, in the
    order of the table. *)
Definition unexpected_columns (df : Polars.DataFrame) (schema : Polars.schema)
  : list string :=
  filter (fun name => negb (contains (map fst schema) name)) (columns df).

(** Modelled from the spec: [pavise/_polars/validation.py], whose
    [validate_dataframe(df, schema, strict=...)] the wrapper calls, is not
    among the sources; only [patrol/_polars/validation.py], without the
    [strict] argument, is.  The declared columns are checked in schema
    order by the loop of that file; then, as the specification of the
    schema validator has it, "if strict=true, after all declared columns
    pass, check the table for columns not present in the schema; if any
    exist, fail naming the full list of unexpected columns". *)
Definition validate_dataframe (df : Polars.DataFrame) (schema : Polars.schema)
    (strict : bool) : result Polars.exn unit :=
  Polars.validate_dataframe df schema ;;
  if strict then
    match unexpected_columns df schema with
    | [] => Return tt
    | extra => Raise (ValidationError (Unexpected_columns extra))
    end
  else Return tt.

Module DataFrame.


End DataFrame.

End Pavise.

(* ===================================================================== *)
(** ** Conforming tables *)
(* ===================================================================== *)

(** What it means for a table to conform to a schema, column by column,
    stated without reference to the order in which the validator works. *)
Module Conformance.

(** A validator attached to a column is satisfied: every non-missing
    entry is a number within the inclusive bounds of a [Range]; no two
    entries of a [Unique] column are equal.  Metadata that is neither is
    never satisfied. *)
Definition satisfied (cells : list cell) (v : validator) : Prop :=
  match v with
  | IsRange r =>
      forall x, In (Some x) cells -> exists z, x = Num z /\ min r <= z <= max r
  | Unique => NoDup cells
  | Unrecognized _ _ => False
  end.

Section PandasConformance.

Context {pd : Pandas.Api}.

(** The dtype of a pandas column is compatible with a base type: the
    column has exactly the named extension dtype, or the predicate that
    [TYPE_CHECKERS] gives for the base type accepts the column, or the
    declaration is optional and the column is a float column declared
    [int] or any column declared [str]. *)
Definition pandas_compatible (base_type : Pandas.annotation)
    (is_optional : bool) (series : Series Pandas.Dtype) : Prop :=
  (exists ext, base_type = Native ext /\
               Pandas.type_is (dtype series) ext = true) \/
  (exists type_checker,
      Pandas.TYPE_CHECKERS base_type = Some type_checker /\
      (type_checker (Pandas.arr series) = true \/
       (is_optional = true /\ base_type = Class py_int /\
        Pandas.is_float_dtype (Pandas.dt (dtype series)) = true) \/
       (is_optional = true /\ base_type = Class py_str))).

Definition pandas_conforms (df : DataFrame Pandas.Dtype)
    (item : string * Pandas.annotation) : Prop :=
  let '(base_type, validators, is_optional) :=
    _extract_type_and_validators (snd item) in
  exists series,
    lookup df (fst item) = Some series /\
    pandas_compatible base_type is_optional series /\
    Forall (satisfied (values series)) validators.

End PandasConformance.

(** The dtype of a polars column is compatible with a base type: it is an
    instance of the named dtype class, or the predicate that
    [TYPE_CHECKERS] gives for the base type accepts it. *)
Definition polars_compatible (base_type : Polars.annotation)
    (col_dtype : pl.DataType) : Prop :=
  (exists cls, base_type = Native cls /\ pl.equals col_dtype cls = true) \/
  (exists type_checker,
      Polars.TYPE_CHECKERS base_type = Some type_checker /\
      type_checker col_dtype = true).


End Conformance.

Import Conformance.

(* ===================================================================== *)
(** ** pavise/polars.py: the dtype of an empty column *)
(* ===================================================================== *)

Module PavisePolars.


Section Materializer.

(** The dictionary [TYPE_TO_DTYPE], imported from
    [pavise/_polars/validation.py], which is not among the sources. *)
Variable TYPE_TO_DTYPE : Polars.annotation -> option pl.DataType.


End Materializer.

End PavisePolars.

(* ===================================================================== *)
(** ** What the polars backend accepts *)
(* ===================================================================== *)

Module Acceptance.

(** The condition under which the polars column check returns, read off
    [_check_column_type]: the column is present, its dtype is compatible
    with the base type, it holds no null when the declaration is not
    optional and the base type is a key of [TYPE_CHECKERS] (a column
    declared by a polars dtype class is not examined for nulls), and every
    attached validator is satisfied. *)
Definition polars_accepts (df : Polars.DataFrame)
    (item : string * Polars.annotation) : Prop :=
  let '(base_type, validators, is_optional) :=
    _extract_type_and_validators (snd item) in
  exists series,
    lookup df (fst item) = Some series /\
    polars_compatible base_type (dtype series) /\
    (is_optional = false -> Polars.TYPE_CHECKERS base_type <> None ->
     Polars.null_count series = 0%nat) /\
    Forall (satisfied (values series)) validators.

End Acceptance.

Import Acceptance.

(* ===================================================================== *)
(** ** Example tables and schemas *)
(* ===================================================================== *)

Module Examples.

Import PandasModel.

Definition pandas_frame : Type := Frames.DataFrame PandasModel.dtype.
Definition pandas_schema : Type := Typing.schema PandasModel.extension_class.

(** [class SimpleSchema(Protocol): a: int] *)
Definition SimpleSchema {native : Type} : Typing.schema native :=
  [("a", Class py_int)].

(** [class SchemaWithStr(Protocol): a: int; b: str] *)
Definition SchemaWithStr {native : Type} : Typing.schema native :=
  [("a", Class py_int); ("b", Class py_str)].

(** [class OptionalSchema(Protocol):
       user_id: int; email: Optional[str]; age: Optional[int]] *)
Definition OptionalSchema {native : Type} : Typing.schema native :=
  [("user_id", Class py_int);
   ("email", Optional (Class py_str));
   ("age", Optional (Class py_int))].

(** [class AgeSchema(Protocol): age: Annotated[int, Range(0, 150)]] *)
Definition AgeSchema {native : Type} : Typing.schema native :=
  [("age", Annotated (Class py_int) [IsRange (mkRange 0 150)])].

(** A schema with validators on an optional column:
    [user_id: Annotated[int, Unique()]],
    [age: Annotated[Optional[int], Range(0, 150)]]. *)
Definition UserSchema {native : Type} : Typing.schema native :=
  [("user_id", Annotated (Class py_int) [Unique]);
   ("age", Annotated (Optional (Class py_int)) [IsRange (mkRange 0 150)])].

(** [pd.DataFrame({"a": [1, 2, None]})]: pandas stores the column as
    [float64], the missing entry as NaN. *)
Definition pd_int_with_null : pandas_frame :=
  [("a", mkSeries float64 (numbers [Some 1; Some 2; None]))].

(** [pd.DataFrame({"a": [1, 2, 3], "b": ["x", None, "z"]})] *)
Definition pd_str_with_null : pandas_frame :=
  [("a", mkSeries int64 (numbers [Some 1; Some 2; Some 3]));
   ("b", mkSeries object_ [Some (Text "x"); None; Some (Text "z")])].

(** [pd.DataFrame({"user_id": [1, 2, 3], "age": [20, None, 30]})] *)
Definition pd_users : pandas_frame :=
  [("user_id", mkSeries int64 (numbers [Some 1; Some 2; Some 3]));
   ("age", mkSeries float64 (numbers [Some 20; None; Some 30]))].

(** [pl.DataFrame({"user_id": [1, 2, 3], "age": [20, None, 30]})] *)
Definition pl_users : Polars.DataFrame :=
  [("user_id", mkSeries (pl.plain pl.Int64) (numbers [Some 1; Some 2; Some 3]));
   ("age", mkSeries (pl.plain pl.Int64) (numbers [Some 20; None; Some 30]))].

(** [pl.DataFrame({"a": [1, 2, None]})] *)
Definition pl_int_with_null : Polars.DataFrame :=
  [("a", mkSeries (pl.plain pl.Int64) (numbers [Some 1; Some 2; None]))].

(** [pl.DataFrame({"a": ["x", None]})] *)
Definition pl_str_with_null : Polars.DataFrame :=
  [("a", mkSeries (pl.plain pl.Utf8) [Some (Text "x"); None])].

(** [pd.DataFrame({"a": ["x", "y", "z"]})] and
    [pl.DataFrame({"a": ["x", "y", "z"]})] *)
Definition pd_letters : pandas_frame :=
  [("a", mkSeries object_ [Some (Text "x"); Some (Text "y"); Some (Text "z")])].

Definition pl_letters : Polars.DataFrame :=
  [("a", mkSeries (pl.plain pl.Utf8)
           [Some (Text "x"); Some (Text "y"); Some (Text "z")])].

(** [pl.DataFrame({"a": [1], "extra": ["x"]})] *)
Definition pl_with_extra : Polars.DataFrame :=
  [("a", mkSeries (pl.plain pl.Int64) (numbers [Some 1]));
   ("extra", mkSeries (pl.plain pl.Utf8) [Some (Text "x")])].

End Examples.

(* ===================================================================== *)
(** ** Properties: loops and look-ups *)
(* ===================================================================== *)

Section Loops.

Context {E A : Type}.
Variable body : A -> result E unit.

Lemma for_each_app (xs ys : list A) :
  for_each body (xs ++ ys) = (for_each body xs ;; for_each body ys).
Proof.
  induction xs as [|x xs IH]; simpl; [reflexivity|].
  destruct (body x); simpl; [apply IH | reflexivity].
Qed.

(** A loop whose every iteration returns returns. *)
Lemma for_each_returns (xs : list A) :
  Forall (fun x => body x = Return tt) xs -> for_each body xs = Return tt.
Proof.
  induction 1 as [|x xs Hx _ IH]; simpl; [reflexivity|].
  rewrite Hx; simpl; exact IH.
Qed.

(** The loop stops at the first iteration that raises: what stands after
    it in the list has no influence on the outcome. *)
Lemma for_each_first_raise (pre post : list A) (x : A) (e : E) :
  Forall (fun y => body y = Return tt) pre ->
  body x = Raise e ->
  for_each body (pre ++ x :: post) = Raise e.
Proof.
  intros Hpre Hx. rewrite for_each_app, (for_each_returns pre Hpre).
  simpl. rewrite Hx. reflexivity.
Qed.

(** An exception that leaves the loop was raised by one of its
    iterations, and every iteration before that one returned. *)
Lemma for_each_raise_inv (xs : list A) (e : E) :
  for_each body xs = Raise e ->
  exists pre x post,
    xs = pre ++ x :: post /\
    Forall (fun y => body y = Return tt) pre /\
    body x = Raise e.
Proof.
  induction xs as [|x xs IH]; simpl; [discriminate|].
  destruct (body x) as [[]|e'] eqn:Hx; simpl.
  - intros H. destruct (IH H) as (pre & y & post & -> & Hpre & Hy).
    exists (x :: pre), y, post. repeat split; auto.
  - intros H. injection H as ->.
    exists [], x, xs. repeat split; auto.
Qed.

End Loops.

Section Lookups.

Context {D : Type}.

Lemma contains_In (names : list string) (name : string) :
  contains names name = true <-> In name names.
Proof.
  unfold contains. rewrite existsb_exists. split.
  - intros (x & Hin & Heq). apply String.eqb_eq in Heq. now subst.
  - intros Hin. exists name. split; [assumption | apply String.eqb_refl].
Qed.

Lemma lookup_contains (df : DataFrame D) (col_name : string) (series : Series D) :
  lookup df col_name = Some series -> contains (columns df) col_name = true.
Proof.
  induction df as [|[name s] df IH]; simpl; [discriminate|].
  destruct (String.eqb_spec col_name name) as [->|Hne].
  - intros _. reflexivity.
  - intros H. rewrite (IH H). apply orb_true_r.
Qed.

Lemma contains_lookup (df : DataFrame D) (col_name : string) :
  contains (columns df) col_name = true ->
  exists series, lookup df col_name = Some series.
Proof.
  induction df as [|[name s] df IH]; simpl; [discriminate|].
  destruct (String.eqb col_name name); simpl; eauto.
Qed.

End Lookups.

Lemma scalar_eqb_eq (x y : scalar) : scalar_eqb x y = true <-> x = y.
Proof.
  destruct x, y; simpl; try (split; discriminate).
  - rewrite Z.eqb_eq. split; congruence.
  - rewrite String.eqb_eq. split; congruence.
Qed.

Lemma cell_eqb_eq (x y : cell) : cell_eqb x y = true <-> x = y.
Proof.
  destruct x, y; simpl; try (split; discriminate); [|tauto].
  rewrite scalar_eqb_eq. split; congruence.
Qed.

Lemma cell_eq_dec (x y : cell) : {x = y} + {x <> y}.
Proof.
  destruct (cell_eqb x y) eqn:H.
  - left. now apply cell_eqb_eq.
  - right. intros Heq. apply cell_eqb_eq in Heq. congruence.
Qed.

(* ===================================================================== *)
(** ** Properties: the Range validator *)
(* ===================================================================== *)

(** A column whose non-missing entries are all numbers is a column of
    numbers. *)
Lemma numeric_cells (cells : list cell) :
  (forall x, In (Some x) cells -> exists z, x = Num z) ->
  exists entries, cells = numbers entries.
Proof.
  induction cells as [|c cells IH]; intros H.
  - exists []. reflexivity.
  - destruct IH as [entries ->]; [intros x Hx; apply H; now right|].
    destruct c as [x|].
    + destruct (H x (or_introl eq_refl)) as [z ->].
      exists (Some z :: entries). reflexivity.
    + exists (None :: entries). reflexivity.
Qed.

Lemma In_numbers (entries : list (option Z)) (z : Z) :
  In (Some (Num z)) (numbers entries) <-> In (Some z) entries.
Proof.
  unfold numbers. rewrite in_map_iff. split.
  - intros ([y|] & Hy & Hin); simpl in Hy; [|discriminate].
    injection Hy as <-. exact Hin.
  - intros Hin. exists (Some z). split; [reflexivity | exact Hin].
Qed.

Section PandasRange.

Context {pd : Pandas.Api}.

Lemma pandas_lt_numbers (bound : Z) (entries : list (option Z)) :
  map_each (Pandas.lt bound) (numbers entries)
  = Return (pandas_mask (fun z => z <? bound) entries).
Proof.
  unfold numbers.
  induction entries as [|[z|] entries IH]; cbn [map option_map map_each];
    [reflexivity| |]; rewrite IH; reflexivity.
Qed.

Lemma pandas_gt_numbers (bound : Z) (entries : list (option Z)) :
  map_each (Pandas.gt bound) (numbers entries)
  = Return (pandas_mask (fun z => bound <? z) entries).
Proof.
  unfold numbers.
  induction entries as [|[z|] entries IH]; cbn [map option_map map_each];
    [reflexivity| |]; rewrite IH; reflexivity.
Qed.

Lemma any_pandas_mask (test : Z -> bool) (entries : list (option Z)) :
  Frames.any (pandas_mask test entries) = true <->
  exists z, In (Some z) entries /\ test z = true.
Proof.
  unfold Frames.any, pandas_mask. rewrite existsb_exists. split.
  - intros (b & Hin & Hb). apply in_map_iff in Hin.
    destruct Hin as ([z|] & Hz & Hin); subst; [eauto | discriminate].
  - intros (z & Hin & Hz). exists true. split; [|reflexivity].
    apply in_map_iff. exists (Some z). auto.
Qed.

(** On a column of numbers the pandas range check raises exactly when an
    entry lies outside the bounds, and returns otherwise. *)
Lemma pandas_validate_range_numbers (d : Pandas.Dtype)
    (entries : list (option Z)) (r : Range) (col_name : string) :
  (Pandas._validate_range (mkSeries d (numbers entries)) r col_name
   = Raise (ValueError (Must_be_in_range col_name (min r) (max r)))
   <-> exists z, In (Some z) entries /\ (z < min r \/ max r < z)) /\
  (Pandas._validate_range (mkSeries d (numbers entries)) r col_name = Return tt
   <-> forall z, In (Some z) entries -> min r <= z <= max r).
Proof.
  unfold Pandas._validate_range; simpl.
  rewrite pandas_lt_numbers; simpl.
  destruct (Frames.any (pandas_mask (fun z => z <? min r) entries)) eqn:Hlo.
  - apply any_pandas_mask in Hlo. destruct Hlo as (z & Hin & Hz).
    apply Z.ltb_lt in Hz. split; split; try discriminate; eauto.
    intros H. specialize (H z Hin). lia.
  - rewrite pandas_gt_numbers; simpl.
    destruct (Frames.any (pandas_mask (fun z => max r <? z) entries)) eqn:Hhi.
    + apply any_pandas_mask in Hhi. destruct Hhi as (z & Hin & Hz).
      apply Z.ltb_lt in Hz. split; split; try discriminate; eauto.
      intros H. specialize (H z Hin). lia.
    + assert (Hall : forall z, In (Some z) entries -> min r <= z <= max r).
      { intros z Hin. split.
        - destruct (Z.ltb_spec z (min r)); [|assumption].
          assert (Frames.any (pandas_mask (fun z => z <? min r) entries) = true)
            by (apply any_pandas_mask; exists z; split; [assumption | now apply Z.ltb_lt]).
          congruence.
        - destruct (Z.ltb_spec (max r) z); [|assumption].
          assert (Frames.any (pandas_mask (fun z => max r <? z) entries) = true)
            by (apply any_pandas_mask; exists z; split; [assumption | now apply Z.ltb_lt]).
          congruence. }
      split; split; try discriminate; auto.
      intros (z & Hin & Hz). specialize (Hall z Hin). lia.
Qed.

End PandasRange.

Lemma polars_lt_numbers (bound : Z) (entries : list (option Z)) :
  map_each (Polars.lt bound) (numbers entries)
  = Return (polars_mask (fun z => z <? bound) entries).
Proof.
  unfold numbers.
  induction entries as [|[z|] entries IH]; cbn [map option_map map_each];
    [reflexivity| |]; rewrite IH; reflexivity.
Qed.

Lemma polars_gt_numbers (bound : Z) (entries : list (option Z)) :
  map_each (Polars.gt bound) (numbers entries)
  = Return (polars_mask (fun z => bound <? z) entries).
Proof.
  unfold numbers.
  induction entries as [|[z|] entries IH]; cbn [map option_map map_each];
    [reflexivity| |]; rewrite IH; reflexivity.
Qed.

Lemma any_polars_mask (test : Z -> bool) (entries : list (option Z)) :
  Polars.any (polars_mask test entries) = true <->
  exists z, In (Some z) entries /\ test z = true.
Proof.
  unfold Polars.any, polars_mask. rewrite existsb_exists. split.
  - intros (b & Hin & Hb). apply in_map_iff in Hin.
    destruct Hin as ([z|] & Hz & Hin); subst; simpl in Hb; [|discriminate].
    exists z. split; [assumption|]. destruct (test z); congruence.
  - intros (z & Hin & Hz). exists (Some true). split; [|reflexivity].
    apply in_map_iff. exists (Some z). simpl. rewrite Hz. auto.
Qed.

(** The polars range check, on a column of numbers. *)
Lemma polars_validate_range_numbers (d : pl.DataType)
    (entries : list (option Z)) (r : Range) (col_name : string) :
  (Polars._validate_range (mkSeries d (numbers entries)) r col_name
   = Raise (ValueError (Must_be_in_range col_name (min r) (max r)))
   <-> exists z, In (Some z) entries /\ (z < min r \/ max r < z)) /\
  (Polars._validate_range (mkSeries d (numbers entries)) r col_name = Return tt
   <-> forall z, In (Some z) entries -> min r <= z <= max r).
Proof.
  unfold Polars._validate_range; simpl.
  rewrite polars_lt_numbers; simpl.
  destruct (Polars.any (polars_mask (fun z => z <? min r) entries)) eqn:Hlo.
  - apply any_polars_mask in Hlo. destruct Hlo as (z & Hin & Hz).
    apply Z.ltb_lt in Hz. split; split; try discriminate; eauto.
    intros H. specialize (H z Hin). lia.
  - rewrite polars_gt_numbers; simpl.
    destruct (Polars.any (polars_mask (fun z => max r <? z) entries)) eqn:Hhi.
    + apply any_polars_mask in Hhi. destruct Hhi as (z & Hin & Hz).
      apply Z.ltb_lt in Hz. split; split; try discriminate; eauto.
      intros H. specialize (H z Hin). lia.
    + assert (Hall : forall z, In (Some z) entries -> min r <= z <= max r).
      { intros z Hin. split.
        - destruct (Z.ltb_spec z (min r)); [|assumption].
          assert (Polars.any (polars_mask (fun z => z <? min r) entries) = true)
            by (apply any_polars_mask; exists z; split; [assumption | now apply Z.ltb_lt]).
          congruence.
        - destruct (Z.ltb_spec (max r) z); [|assumption].
          assert (Polars.any (polars_mask (fun z => max r <? z) entries) = true)
            by (apply any_polars_mask; exists z; split; [assumption | now apply Z.ltb_lt]).
          congruence. }
      split; split; try discriminate; auto.
      intros (z & Hin & Hz). specialize (Hall z Hin). lia.
Qed.

(* ===================================================================== *)
(** ** Properties: the Unique validator *)
(* ===================================================================== *)

Lemma In_non_null (cells : list cell) (v : scalar) :
  In v (non_null cells) <-> In (Some v) cells.
Proof.
  induction cells as [|[w|] cells IH]; simpl.
  - tauto.
  - rewrite IH. split; intros [H|H]; auto; left; congruence.
  - rewrite IH. split; [auto | intros [H|H]; [discriminate | assumption]].
Qed.

Lemma missing_none (cells : list cell) :
  missing cells = 0%nat <-> ~ In None cells.
Proof.
  unfold missing. induction cells as [|[w|] cells IH]; simpl.
  - tauto.
  - rewrite IH. split; [intros H [H'|H']; [discriminate | auto] | auto].
  - split; [discriminate | intros H; exfalso; auto].
Qed.

(** The entries of a column are pairwise distinct exactly when its
    non-missing entries are and at most one entry is missing. *)
Lemma NoDup_cells (cells : list cell) :
  NoDup cells <-> NoDup (non_null cells) /\ (missing cells <= 1)%nat.
Proof.
  induction cells as [|[w|] cells IH].
  - simpl. split; [split; [constructor | unfold missing; simpl; lia] | constructor].
  - change (non_null (Some w :: cells)) with (w :: non_null cells).
    change (missing (Some w :: cells)) with (missing cells).
    rewrite !NoDup_cons_iff, IH, In_non_null. tauto.
  - change (non_null (None :: cells)) with (non_null cells).
    change (missing (None :: cells)) with (S (missing cells)).
    rewrite NoDup_cons_iff, IH, <- missing_none. split.
    + intros (H0 & Hnn & _). split; [assumption | lia].
    + intros (Hnn & H1). repeat split; [lia | assumption | lia].
Qed.

Lemma existsb_cell_eqb (c : cell) (cells : list cell) :
  existsb (cell_eqb c) cells = true <-> In c cells.
Proof.
  rewrite existsb_exists. split.
  - intros (x & Hin & Heq). apply cell_eqb_eq in Heq. now subst.
  - intros Hin. exists c. split; [assumption | now apply cell_eqb_eq].
Qed.

Section PandasUnique.

Context {pd : Pandas.Api}.

Lemma duplicated_after_none (seen cells : list cell) :
  Frames.any (Pandas.duplicated_after seen cells) = false <->
  NoDup cells /\ (forall c, In c cells -> ~ In c seen).
Proof.
  revert seen. induction cells as [|c cells IH]; intros seen; simpl.
  - split; [intros _; split; [constructor | intros c []] | reflexivity].
  - rewrite orb_false_iff, IH, NoDup_cons_iff.
    rewrite <- not_true_iff_false, existsb_cell_eqb. split.
    + intros (Hc & Hnd & Hseen). repeat split; auto.
      * intros Hin. apply (Hseen c Hin). now left.
      * intros x [<-|Hx]; [assumption|].
        intros Hin. apply (Hseen x Hx). now right.
    + intros ((Hc & Hnd) & Hseen). repeat split; auto.
      intros x Hx [<-|Hin]; [auto | apply (Hseen x); auto].
Qed.

(** The pandas uniqueness check returns exactly on the columns whose
    entries, the missing ones included, are pairwise distinct. *)
Lemma pandas_validate_unique_spec (series : Series Pandas.Dtype) (col_name : string) :
  (Pandas._validate_unique series col_name = Return tt <-> NoDup (values series)) /\
  (Pandas._validate_unique series col_name
   = Raise (ValueError (Duplicate_values col_name)) <-> ~ NoDup (values series)).
Proof.
  unfold Pandas._validate_unique, Pandas.duplicated.
  destruct (Frames.any (Pandas.duplicated_after [] (values series))) eqn:H.
  - assert (Hd : ~ NoDup (values series)).
    { intros Hnd.
      assert (Frames.any (Pandas.duplicated_after [] (values series)) = false)
        by (apply duplicated_after_none; split; [assumption | intros c _ []]).
      congruence. }
    split; split; try discriminate; tauto.
  - apply duplicated_after_none in H. destruct H as [Hnd _].
    split; split; try discriminate; tauto.
Qed.

End PandasUnique.

Lemma occurrences_count_occ (c : cell) (cells : list cell) :
  Polars.occurrences c cells = count_occ cell_eq_dec cells c.
Proof.
  unfold Polars.occurrences. induction cells as [|x cells IH]; simpl; [reflexivity|].
  destruct (cell_eq_dec x c) as [->|Hne].
  - replace (cell_eqb c c) with true by (symmetry; now apply cell_eqb_eq).
    simpl. now rewrite IH.
  - destruct (cell_eqb c x) eqn:H; [|assumption].
    apply cell_eqb_eq in H. congruence.
Qed.

Lemma is_duplicated_none (series : Polars.Series) :
  Frames.any (Polars.is_duplicated series) = false <-> NoDup (values series).
Proof.
  unfold Polars.is_duplicated, Frames.any.
  rewrite <- not_true_iff_false, existsb_exists, (NoDup_count_occ cell_eq_dec).
  split.
  - intros H c. destruct (Nat.leb_spec (count_occ cell_eq_dec (values series) c) 1)
      as [|Hgt]; [assumption|].
    exfalso. apply H. exists true. split; [|reflexivity].
    apply in_map_iff. exists c. split.
    + rewrite occurrences_count_occ. now apply Nat.ltb_lt.
    + apply (count_occ_In cell_eq_dec). lia.
  - intros H (b & Hin & Hb). subst b. apply in_map_iff in Hin.
    destruct Hin as (c & Hc & _). rewrite occurrences_count_occ in Hc.
    apply Nat.ltb_lt in Hc. specialize (H c). lia.
Qed.

(** The polars uniqueness check, likewise. *)
Lemma polars_validate_unique_spec (series : Polars.Series) (col_name : string) :
  (Polars._validate_unique series col_name = Return tt <-> NoDup (values series)) /\
  (Polars._validate_unique series col_name
   = Raise (ValueError (Duplicate_values col_name)) <-> ~ NoDup (values series)).
Proof.
  unfold Polars._validate_unique.
  destruct (Frames.any (Polars.is_duplicated series)) eqn:H.
  - assert (Hd : ~ NoDup (values series)).
    { intros Hnd. apply is_duplicated_none in Hnd. congruence. }
    split; split; try discriminate; tauto.
  - apply is_duplicated_none in H.
    split; split; try discriminate; tauto.
Qed.

(* ===================================================================== *)
(** ** Properties: conforming tables pass *)
(* ===================================================================== *)

Section PandasConforming.

Context {pd : Pandas.Api}.

Lemma pandas_satisfied_returns (series : Series Pandas.Dtype) (v : validator)
    (col_name : string) :
  satisfied (values series) v ->
  Pandas.apply_validator series v col_name = Return tt.
Proof.
  destruct v as [r| |name hashable]; simpl; intros H.
  - destruct (numeric_cells (values series)) as [entries Hentries].
    { intros x Hx. destruct (H x Hx) as (z & -> & _). eauto. }
    destruct series as [d cells]; simpl in *; subst cells.
    apply pandas_validate_range_numbers. intros z Hz.
    apply In_numbers in Hz. destruct (H _ Hz) as (z' & Heq & Hb).
    injection Heq as <-. exact Hb.
  - now apply pandas_validate_unique_spec.
  - contradiction.
Qed.

Lemma pandas_validators_return (series : Series Pandas.Dtype)
    (validators : list validator) (col_name : string) :
  Forall (satisfied (values series)) validators ->
  for_each (fun v => Pandas.apply_validator series v col_name) validators
  = Return tt.
Proof.
  intros H. apply for_each_returns. revert H. apply Forall_impl.
  intros v. apply pandas_satisfied_returns.
Qed.

Lemma pandas_conforming_column (df : DataFrame Pandas.Dtype)
    (item : string * Pandas.annotation) :
  pandas_conforms df item -> Pandas.check_column df item = Return tt.
Proof.
  destruct item as [col_name col_type].
  unfold pandas_conforms, Pandas.check_column, Pandas._check_column_exists,
    Pandas._check_column_type; simpl.
  destruct (_extract_type_and_validators col_type) as [[base_type validators] is_optional].
  intros (series & Hlookup & Hcompat & Hvalid).
  rewrite (lookup_contains _ _ _ Hlookup); simpl.
  pose proof (pandas_validators_return series validators col_name Hvalid) as Hloop.
  destruct Hcompat as [(ext & -> & Hext) | (type_checker & Hchk & Hok)].
  - unfold getitem. rewrite Hlookup; simpl. rewrite Hext; simpl. exact Hloop.
  - assert (Hbody :
      (match Pandas.TYPE_CHECKERS base_type with
       | None => Raise (not_in_TYPE_CHECKERS base_type)
       | Some type_checker =>
           series <- getitem df col_name ;;
           Pandas.check_dtype type_checker series col_name base_type is_optional ;;
           for_each (fun v => Pandas.apply_validator series v col_name) validators
       end) = Return tt).
    { rewrite Hchk. unfold getitem. rewrite Hlookup; simpl.
      replace (Pandas.check_dtype type_checker series col_name base_type is_optional)
        with (@Return Pandas.exn unit tt); [exact Hloop|].
      unfold Pandas.check_dtype.
      destruct (type_checker (Pandas.arr series)); simpl; [reflexivity|].
      destruct Hok as [Hok | [(-> & -> & Hfloat) | (-> & ->)]].
      - discriminate.
      - simpl. rewrite Hfloat. reflexivity.
      - reflexivity. }
    destruct base_type; try exact Hbody. simpl in Hchk. discriminate.
Qed.

End PandasConforming.

Lemma polars_satisfied_returns (series : Polars.Series) (v : validator)
    (col_name : string) :
  satisfied (values series) v ->
  Polars.apply_validator series v col_name = Return tt.
Proof.
  destruct v as [r| |name hashable]; simpl; intros H.
  - destruct (numeric_cells (values series)) as [entries Hentries].
    { intros x Hx. destruct (H x Hx) as (z & -> & _). eauto. }
    destruct series as [d cells]; simpl in *; subst cells.
    apply polars_validate_range_numbers. intros z Hz.
    apply In_numbers in Hz. destruct (H _ Hz) as (z' & Heq & Hb).
    injection Heq as <-. exact Hb.
  - now apply polars_validate_unique_spec.
  - contradiction.
Qed.

Lemma polars_validators_return (series : Polars.Series)
    (validators : list validator) (col_name : string) :
  Forall (satisfied (values series)) validators ->
  for_each (fun v => Polars.apply_validator series v col_name) validators
  = Return tt.
Proof.
  intros H. apply for_each_returns. revert H. apply Forall_impl.
  intros v. apply polars_satisfied_returns.
Qed.




(* ===================================================================== *)
(** ** Properties: the first failure is the one reported *)
(* ===================================================================== *)

(** C2, as amended.  When a declared column [c] is absent from the table
    and every column declared before [c] is present and passes its checks,
    [validate_dataframe] raises the missing-column error that names [c];
    the columns declared after [c] play no part in the outcome.  This
    holds in both backends. *)
Theorem C2_first_missing_column_is_reported :
  (forall (pd : Pandas.Api) (df : DataFrame Pandas.Dtype)
          (pre post : Typing.schema Pandas.ExtensionDtype)
          (c : string) (col_type : Pandas.annotation),
      Forall (fun item => Pandas.check_column df item = Return tt) pre ->
      contains (columns df) c = false ->
      Pandas.validate_dataframe df (pre ++ (c, col_type) :: post)
      = Raise (ValueError (Missing_column c))) /\
  (forall (df : Polars.DataFrame) (pre post : Polars.schema)
          (c : string) (col_type : Polars.annotation),
      Forall (fun item => Polars.check_column df item = Return tt) pre ->
      contains (columns df) c = false ->
      Polars.validate_dataframe df (pre ++ (c, col_type) :: post)
      = Raise (ValueError (Missing_column c))).
Proof.
  split.
  - intros pd df pre post c col_type Hpre Hc.
    apply for_each_first_raise; [exact Hpre|].
    unfold Pandas.check_column, Pandas._check_column_exists.
    rewrite Hc. reflexivity.
  - intros df pre post c col_type Hpre Hc.
    apply for_each_first_raise; [exact Hpre|].
    unfold Polars.check_column, Polars._check_column_exists.
    rewrite Hc. reflexivity.
Qed.

Lemma C2_first_missing_column_is_reported_witness :
  Pandas.validate_dataframe (pd := PandasModel.pandas) Examples.pd_users
    ([("user_id", Class py_int)] ++ ("email", Optional (Class py_str))
       :: [("age", Optional (Class py_int))])
  = Raise (ValueError (Missing_column "email")) /\
  Polars.validate_dataframe Examples.pl_users
    ([("user_id", Class py_int)] ++ ("email", Optional (Class py_str))
       :: [("age", Optional (Class py_int))])
  = Raise (ValueError (Missing_column "email")).
Proof.
  split.
  - apply (proj1 C2_first_missing_column_is_reported PandasModel.pandas).
    + apply Forall_cons; [reflexivity | apply Forall_nil].
    + reflexivity.
  - apply (proj2 C2_first_missing_column_is_reported).
    + apply Forall_cons; [reflexivity | apply Forall_nil].
    + reflexivity.
Defined.

(** C2 as stated fails: the tables below lack the declared column [b],
    yet the error that [validate_dataframe] raises does not name [b].
    With a column [a] of strings it is the type error of [a], declared
    before [b]; with no column at all it is the missing-column error of
    [a]. *)
Lemma C2_counterexample :
  In "b" (map fst (@Examples.SchemaWithStr pl.DataTypeClass)) /\
  contains (columns Examples.pl_letters) "b" = false /\
  contains (columns Examples.pd_letters) "b" = false /\
  Polars.validate_dataframe Examples.pl_letters Examples.SchemaWithStr
  = Raise (TypeError (Expected_got "a" (Class py_int) (pl.plain pl.Utf8))) /\
  Polars.validate_dataframe Examples.pl_letters Examples.SchemaWithStr
  <> Raise (ValueError (Missing_column "b")) /\
  Pandas.validate_dataframe (pd := PandasModel.pandas)
    Examples.pd_letters Examples.SchemaWithStr
  = Raise (TypeError (Expected_got "a" (Class py_int) PandasModel.object_)) /\
  Pandas.validate_dataframe (pd := PandasModel.pandas)
    Examples.pd_letters Examples.SchemaWithStr
  <> Raise (ValueError (Missing_column "b")) /\
  Polars.validate_dataframe [] Examples.SchemaWithStr
  = Raise (ValueError (Missing_column "a")) /\
  Pandas.validate_dataframe (pd := PandasModel.pandas) [] Examples.SchemaWithStr
  = Raise (ValueError (Missing_column "a")).
Proof.
  repeat split; try reflexivity; try discriminate. simpl. auto.
Qed.

(* ===================================================================== *)
(** ** Properties: what the value validators can raise *)
(* ===================================================================== *)

Section PandasValidatorErrors.

Context {pd : Pandas.Api}.

Lemma pandas_compare_raise (f : Z -> cell -> result Pandas.exn bool)
    (bound : Z) (cells : list cell) (e : Pandas.exn) :
  f = Pandas.lt \/ f = Pandas.gt ->
  map_each (f bound) cells = Raise e -> e = LibraryError Not_comparable.
Proof.
  intros Hf. induction cells as [|c cells IH]; simpl; [discriminate|].
  assert (Hc : forall e', f bound c = Raise e' -> e' = LibraryError Not_comparable).
  { destruct Hf as [-> | ->]; destruct c as [[z|s]|]; simpl; congruence. }
  destruct (f bound c) as [b|e'] eqn:Hfc; simpl.
  - destruct (map_each (f bound) cells) as [bs|e'']; simpl; [discriminate|].
    intros H. injection H as <-. now apply IH.
  - intros H. injection H as <-. now apply Hc.
Qed.

(** A pandas value validator raises a [ValueError], or lets through the
    error of a comparison that pandas refuses; never a [TypeError]. *)
Lemma pandas_validator_raise (series : Series Pandas.Dtype) (v : validator)
    (col_name : string) (e : Pandas.exn) :
  Pandas.apply_validator series v col_name = Raise e ->
  (exists m, e = ValueError m) \/ e = LibraryError Not_comparable.
Proof.
  destruct v as [r| |name hashable]; simpl.
  - unfold Pandas._validate_range.
    destruct (map_each (Pandas.lt (min r)) (values series)) as [below|e1] eqn:H1; simpl.
    + destruct (Frames.any below); [intros H; injection H as <-; eauto|].
      destruct (map_each (Pandas.gt (max r)) (values series)) as [above|e2] eqn:H2; simpl.
      * destruct (Frames.any above); [intros H; injection H as <-; eauto | discriminate].
      * intros H. injection H as <-. right.
        eapply pandas_compare_raise; [right; reflexivity | exact H2].
    + intros H. injection H as <-. right.
      eapply pandas_compare_raise; [left; reflexivity | exact H1].
  - unfold Pandas._validate_unique.
    destruct (Frames.any (Pandas.duplicated series));
      [intros H; injection H as <-; eauto | discriminate].
  - intros H. injection H as <-. eauto.
Qed.

Lemma pandas_validators_raise (series : Series Pandas.Dtype)
    (validators : list validator) (col_name : string) (e : Pandas.exn) :
  for_each (fun v => Pandas.apply_validator series v col_name) validators = Raise e ->
  (exists m, e = ValueError m) \/ e = LibraryError Not_comparable.
Proof.
  intros H. apply for_each_raise_inv in H.
  destruct H as (pre & v & post & _ & _ & Hv).
  eapply pandas_validator_raise; eassumption.
Qed.

End PandasValidatorErrors.

Lemma polars_compare_raise (f : Z -> cell -> result Polars.exn (option bool))
    (bound : Z) (cells : list cell) (e : Polars.exn) :
  f = Polars.lt \/ f = Polars.gt ->
  map_each (f bound) cells = Raise e -> e = LibraryError Not_comparable.
Proof.
  intros Hf. induction cells as [|c cells IH]; simpl; [discriminate|].
  assert (Hc : forall e', f bound c = Raise e' -> e' = LibraryError Not_comparable).
  { destruct Hf as [-> | ->]; destruct c as [[z|s]|]; simpl; congruence. }
  destruct (f bound c) as [b|e'] eqn:Hfc; simpl.
  - destruct (map_each (f bound) cells) as [bs|e'']; simpl; [discriminate|].
    intros H. injection H as <-. now apply IH.
  - intros H. injection H as <-. now apply Hc.
Qed.

(** A polars value validator raises a [ValueError], or lets through the
    error of a comparison that polars refuses; never a [TypeError]. *)
Lemma polars_validator_raise (series : Polars.Series) (v : validator)
    (col_name : string) (e : Polars.exn) :
  Polars.apply_validator series v col_name = Raise e ->
  (exists m, e = ValueError m) \/ e = LibraryError Not_comparable.
Proof.
  destruct v as [r| |name hashable]; simpl.
  - unfold Polars._validate_range.
    destruct (map_each (Polars.lt (min r)) (values series)) as [below|e1] eqn:H1; simpl.
    + destruct (Polars.any below); [intros H; injection H as <-; eauto|].
      destruct (map_each (Polars.gt (max r)) (values series)) as [above|e2] eqn:H2; simpl.
      * destruct (Polars.any above); [intros H; injection H as <-; eauto | discriminate].
      * intros H. injection H as <-. right.
        eapply polars_compare_raise; [right; reflexivity | exact H2].
    + intros H. injection H as <-. right.
      eapply polars_compare_raise; [left; reflexivity | exact H1].
  - unfold Polars._validate_unique.
    destruct (Frames.any (Polars.is_duplicated series));
      [intros H; injection H as <-; eauto | discriminate].
  - intros H. injection H as <-. eauto.
Qed.

Lemma polars_validators_raise (series : Polars.Series)
    (validators : list validator) (col_name : string) (e : Polars.exn) :
  for_each (fun v => Polars.apply_validator series v col_name) validators = Raise e ->
  (exists m, e = ValueError m) \/ e = LibraryError Not_comparable.
Proof.
  intros H. apply for_each_raise_inv in H.
  destruct H as (pre & v & post & _ & _ & Hv).
  eapply polars_validator_raise; eassumption.
Qed.

(* ===================================================================== *)
(** ** Properties: nulls in the polars backend *)
(* ===================================================================== *)

(** The column check of the polars backend for a base type found in
    [TYPE_CHECKERS]. *)
Lemma polars_check_supported_type (df : Polars.DataFrame) (col_name : string)
    (col_type base_type : Polars.annotation) (validators : list validator)
    (is_optional : bool) (type_checker : pl.DataType -> bool) :
  _extract_type_and_validators col_type = (base_type, validators, is_optional) ->
  Polars.TYPE_CHECKERS base_type = Some type_checker ->
  Polars._check_column_type df col_name col_type
  = (series <- getitem df col_name ;;
     if negb (type_checker (dtype series)) then
       Raise (TypeError (Expected_got col_name base_type (dtype series)))
     else if negb is_optional && (0 <? Polars.null_count series)%nat then
       Raise (TypeError (Non_optional_nulls col_name))
     else
       for_each (fun v => Polars.apply_validator series v col_name) validators).
Proof.
  intros Hex Hchk. unfold Polars._check_column_type. rewrite Hex.
  destruct base_type; try (simpl in Hchk; discriminate);
    cbv iota; rewrite Hchk; reflexivity.
Qed.

(** C3, as amended.  In the polars backend, take a column [c] whose
    declaration is not marked optional and whose base type is one of the
    supported Python types.  If the dtype of [c] passes the dtype check of
    that base type, [c] holds at least one null, and every column declared
    before [c] passes its checks, then [validate_dataframe] fails with the
    error "non-optional but contains null values" naming [c].  For a
    column whose declaration is marked optional that error is never
    raised. *)
Theorem C3_null_in_non_optional_column :
  (forall (df : Polars.DataFrame) (pre post : Polars.schema) (c : string)
          (col_type base_type : Polars.annotation)
          (validators : list validator)
          (type_checker : pl.DataType -> bool) (series : Polars.Series),
      _extract_type_and_validators col_type = (base_type, validators, false) ->
      Polars.TYPE_CHECKERS base_type = Some type_checker ->
      lookup df c = Some series ->
      type_checker (dtype series) = true ->
      (0 < Polars.null_count series)%nat ->
      Forall (fun item => Polars.check_column df item = Return tt) pre ->
      Polars.validate_dataframe df (pre ++ (c, col_type) :: post)
      = Raise (TypeError (Non_optional_nulls c))) /\
  (forall (df : Polars.DataFrame) (c c' : string)
          (col_type base_type : Polars.annotation)
          (validators : list validator),
      _extract_type_and_validators col_type = (base_type, validators, true) ->
      Polars._check_column_type df c col_type
      <> Raise (TypeError (Non_optional_nulls c'))).
Proof.
  split.
  - intros df pre post c col_type base_type validators type_checker series
      Hex Hchk Hlookup Hdtype Hnull Hpre.
    apply for_each_first_raise; [exact Hpre|].
    unfold Polars.check_column, Polars._check_column_exists.
    rewrite (lookup_contains _ _ _ Hlookup); simpl.
    rewrite (polars_check_supported_type _ _ _ _ _ _ _ Hex Hchk).
    unfold getitem. rewrite Hlookup; simpl. rewrite Hdtype; simpl.
    apply Nat.ltb_lt in Hnull. rewrite Hnull. reflexivity.
  - intros df c c' col_type base_type validators Hex H.
    assert (Hloop : forall series,
      for_each (fun v => Polars.apply_validator series v c) validators
      <> Raise (TypeError (Non_optional_nulls c'))).
    { intros series Hv. apply polars_validators_raise in Hv.
      destruct Hv as [[m Hm] | Hm]; discriminate. }
    destruct (Polars.TYPE_CHECKERS base_type) as [type_checker|] eqn:Hchk.
    + rewrite (polars_check_supported_type _ _ _ _ _ _ _ Hex Hchk) in H.
      unfold getitem in H. destruct (lookup df c) as [series|]; simpl in H;
        [|discriminate].
      destruct (type_checker (dtype series)); simpl in H; [|discriminate].
      exact (Hloop series H).
    + unfold Polars._check_column_type in H. rewrite Hex in H.
      destruct base_type; cbv iota in H;
        try (rewrite Hchk in H; unfold not_in_TYPE_CHECKERS in H;
             match type of H with context [if ?b then _ else _] => destruct b end;
             discriminate).
      unfold getitem in H. destruct (lookup df c) as [series|]; simpl in H;
        [|discriminate].
      destruct (pl.equals (dtype series) n); simpl in H; [|discriminate].
      exact (Hloop series H).
Qed.

Lemma C3_null_in_non_optional_column_witness :
  Polars.validate_dataframe Examples.pl_int_with_null
    ([] ++ ("a", Class py_int) :: [])
  = Raise (TypeError (Non_optional_nulls "a")) /\
  Polars._check_column_type Examples.pl_users "age" (Optional (Class py_int))
  <> Raise (TypeError (Non_optional_nulls "age")).
Proof.
  split.
  - eapply (proj1 C3_null_in_non_optional_column);
      [reflexivity | reflexivity | reflexivity | reflexivity
      | unfold Polars.null_count, missing; simpl; lia | apply Forall_nil].
  - eapply (proj2 C3_null_in_non_optional_column). reflexivity.
Defined.

(** C3 as stated fails: the column [a] below is declared [int], a
    supported type without the optional mark, and holds a null, yet
    [validate_dataframe] fails with the dtype mismatch of [a] (its dtype
    is the string dtype), not with the null error. *)
Lemma C3_counterexample :
  _extract_type_and_validators (native := pl.DataTypeClass) (Class py_int)
  = (Class py_int, [], false) /\
  (exists series,
      lookup Examples.pl_str_with_null "a" = Some series /\
      Polars.null_count series = 1%nat) /\
  Polars.validate_dataframe Examples.pl_str_with_null Examples.SimpleSchema
  = Raise (TypeError (Expected_got "a" (Class py_int) (pl.plain pl.Utf8))) /\
  Polars.validate_dataframe Examples.pl_str_with_null Examples.SimpleSchema
  <> Raise (TypeError (Non_optional_nulls "a")).
Proof.
  repeat split; try reflexivity; try discriminate.
  eexists. split; reflexivity.
Qed.

(* ===================================================================== *)
(** ** Properties: the dtype check of the pandas backend *)
(* ===================================================================== *)

Section PandasDtypeCheck.

Context {pd : Pandas.Api}.

(** The column check of the pandas backend for a base type found in
    [TYPE_CHECKERS]. *)
Lemma pandas_check_supported_type (df : DataFrame Pandas.Dtype)
    (col_name : string) (col_type base_type : Pandas.annotation)
    (validators : list validator) (is_optional : bool)
    (type_checker : Pandas.arr_or_dtype Pandas.Dtype -> bool) :
  _extract_type_and_validators col_type = (base_type, validators, is_optional) ->
  Pandas.TYPE_CHECKERS base_type = Some type_checker ->
  Pandas._check_column_type df col_name col_type
  = (series <- getitem df col_name ;;
     Pandas.check_dtype type_checker series col_name base_type is_optional ;;
     for_each (fun v => Pandas.apply_validator series v col_name) validators).
Proof.
  intros Hex Hchk. unfold Pandas._check_column_type. rewrite Hex.
  destruct base_type; try (simpl in Hchk; discriminate);
    cbv iota; rewrite Hchk; reflexivity.
Qed.

(** For a declaration [Optional[str]] the dtype test lets every column
    through: when [is_string_dtype] rejects the column, the second
    leniency applies, and its last conjunct [isinstance(col_dtype,
    object)] is true of every dtype. *)
Lemma pandas_optional_str_dtype (type_checker : Pandas.arr_or_dtype Pandas.Dtype -> bool)
    (series : Series Pandas.Dtype) (col_name : string) :
  Pandas.check_dtype type_checker series col_name (Class py_str) true = Return tt.
Proof.
  unfold Pandas.check_dtype. destruct (type_checker (Pandas.arr series)); reflexivity.
Qed.

Lemma pandas_optional_str_column (df : DataFrame Pandas.Dtype) (col_name : string)
    (col_type : Pandas.annotation) (validators : list validator)
    (m : message Pandas.ExtensionDtype Pandas.Dtype) :
  _extract_type_and_validators col_type = (Class py_str, validators, true) ->
  Pandas._check_column_type df col_name col_type <> Raise (TypeError m).
Proof.
  intros Hex H.
  rewrite (pandas_check_supported_type _ _ _ _ _ _ _ Hex eq_refl) in H.
  unfold getitem in H. destruct (lookup df col_name) as [series|]; simpl in H;
    [|discriminate].
  rewrite pandas_optional_str_dtype in H; simpl in H.
  apply pandas_validators_raise in H. destruct H as [[m' Hm] | Hm]; discriminate.
Qed.

End PandasDtypeCheck.

(** C4, as amended.  In the pandas backend the leniency of the dtype
    check applies to declarations marked optional only.  For a column that
    is present: declared [Optional[int]] with a float dtype, or declared
    [Optional[str]] with any dtype, it passes the dtype check; declared
    plain [int] (plain [str]) and rejected by [is_integer_dtype]
    ([is_string_dtype]), it raises the type error naming the column,
    whatever its dtype is, float and object included. *)
Theorem C4_leniency_requires_optional :
  forall (pd : Pandas.Api) (df : DataFrame Pandas.Dtype) (c : string)
         (series : Series Pandas.Dtype),
    lookup df c = Some series ->
    (Pandas.is_float_dtype (Pandas.dt (dtype series)) = true ->
     Pandas._check_column_type df c (Optional (Class py_int)) = Return tt) /\
    Pandas._check_column_type df c (Optional (Class py_str)) = Return tt /\
    (Pandas.is_integer_dtype (Pandas.arr series) = false ->
     Pandas._check_column_type df c (Class py_int)
     = Raise (TypeError (Expected_got c (Class py_int) (dtype series)))) /\
    (Pandas.is_string_dtype (Pandas.arr series) = false ->
     Pandas._check_column_type df c (Class py_str)
     = Raise (TypeError (Expected_got c (Class py_str) (dtype series)))).
Proof.
  intros pd df c series Hlookup.
  unfold Pandas._check_column_type, getitem; simpl.
  rewrite Hlookup; simpl. unfold Pandas.check_dtype; simpl.
  repeat split.
  - intros Hfloat. rewrite Hfloat.
    destruct (Pandas.is_integer_dtype (Pandas.arr series)); reflexivity.
  - destruct (Pandas.is_string_dtype (Pandas.arr series)); reflexivity.
  - intros Hint. rewrite Hint. reflexivity.
  - intros Hstr. rewrite Hstr. reflexivity.
Qed.

Lemma C4_leniency_requires_optional_witness :
  Pandas._check_column_type (pd := PandasModel.pandas)
    Examples.pd_int_with_null "a" (Optional (Class py_int)) = Return tt /\
  Pandas._check_column_type (pd := PandasModel.pandas)
    Examples.pd_int_with_null "a" (Class py_int)
  = Raise (TypeError (Expected_got "a" (Class py_int) PandasModel.float64)) /\
  Pandas._check_column_type (pd := PandasModel.pandas)
    Examples.pd_int_with_null "a" (Class py_str)
  = Raise (TypeError (Expected_got "a" (Class py_str) PandasModel.float64)).
Proof.
  pose proof (C4_leniency_requires_optional PandasModel.pandas
                Examples.pd_int_with_null "a" _ eq_refl)
    as (Hoptional & _ & Hint & Hstr).
  split; [apply Hoptional; reflexivity|].
  split; [apply Hint; reflexivity | apply Hstr; reflexivity].
Defined.

(** C4 as stated fails: with the declaration a plain [int], the float
    column that pandas builds from [[1, 2, None]] raises the type error;
    with the declaration a plain [str], so does the object column built
    from [["x", None, "z"]].  Both are tests of the repository. *)
Lemma C4_counterexample :
  PandasModel.is_float_dtype (Pandas.dt PandasModel.float64) = true /\
  Pandas.validate_dataframe (pd := PandasModel.pandas)
    Examples.pd_int_with_null Examples.SimpleSchema
  = Raise (TypeError (Expected_got "a" (Class py_int) PandasModel.float64)) /\
  Pandas.validate_dataframe (pd := PandasModel.pandas)
    Examples.pd_str_with_null Examples.SchemaWithStr
  = Raise (TypeError (Expected_got "b" (Class py_str) PandasModel.object_)).
Proof. repeat split. Qed.

(** C9.  In the pandas backend the dtype test of a column declared
    [Optional[str]] passes for every dtype, because [isinstance(col_dtype,
    object)] is true of every dtype; so the check of such a column never
    raises a type error, and a type error that leaves [validate_dataframe]
    was raised for a column that is not declared [Optional[str]]. *)
Theorem C9_optional_str_accepts_every_dtype :
  forall (pd : Pandas.Api),
    (forall d : Pandas.Dtype, isinstance_object d = true) /\
    (forall (type_checker : Pandas.arr_or_dtype Pandas.Dtype -> bool)
            (series : Series Pandas.Dtype) (col_name : string),
        Pandas.check_dtype type_checker series col_name (Class py_str) true
        = Return tt) /\
    (forall (df : DataFrame Pandas.Dtype) (col_name : string)
            (series : Series Pandas.Dtype),
        lookup df col_name = Some series ->
        Pandas._check_column_type df col_name (Optional (Class py_str))
        = Return tt) /\
    (forall (df : DataFrame Pandas.Dtype)
            (schema : Typing.schema Pandas.ExtensionDtype)
            (m : message Pandas.ExtensionDtype Pandas.Dtype),
        Pandas.validate_dataframe df schema = Raise (TypeError m) ->
        exists col_name col_type,
          In (col_name, col_type) schema /\
          Pandas._check_column_type df col_name col_type = Raise (TypeError m) /\
          forall validators,
            _extract_type_and_validators col_type
            <> (Class py_str, validators, true)).
Proof.
  intros pd. split; [reflexivity|]. split; [apply pandas_optional_str_dtype|].
  split.
  - intros df col_name series Hlookup.
    unfold Pandas._check_column_type, getitem; simpl. rewrite Hlookup; simpl.
    rewrite pandas_optional_str_dtype. reflexivity.
  - intros df schema m H. apply for_each_raise_inv in H.
    destruct H as (pre & [col_name col_type] & post & -> & _ & Hitem).
    exists col_name, col_type. split; [apply in_elt|].
    unfold Pandas.check_column, Pandas._check_column_exists in Hitem.
    destruct (negb (contains (columns df) col_name)); simpl in Hitem;
      [discriminate|].
    split; [exact Hitem|].
    intros validators Hex.
    exact (pandas_optional_str_column _ _ _ _ _ Hex Hitem).
Qed.

Lemma C9_optional_str_accepts_every_dtype_witness :
  Pandas._check_column_type (pd := PandasModel.pandas)
    Examples.pd_users "user_id" (Optional (Class py_str)) = Return tt /\
  exists col_name col_type,
    In (col_name, col_type) (@Examples.SimpleSchema PandasModel.extension_class) /\
    Pandas._check_column_type (pd := PandasModel.pandas)
      Examples.pd_int_with_null col_name col_type
    = Raise (TypeError (Expected_got "a" (Class py_int) PandasModel.float64)) /\
    forall validators,
      _extract_type_and_validators col_type <> (Class py_str, validators, true).
Proof.
  destruct (C9_optional_str_accepts_every_dtype PandasModel.pandas)
    as (_ & _ & Hcolumn & Htable).
  split.
  - apply (Hcolumn Examples.pd_users "user_id" _ eq_refl).
  - apply (Htable Examples.pd_int_with_null Examples.SimpleSchema _ eq_refl).
Defined.

(* ===================================================================== *)
(** ** Properties: what the value validators decide *)
(* ===================================================================== *)

(** C5.  On a column of numbers with an attached [Range(min, max)], the
    validator fails with the range error naming the column if and only if
    some non-null entry is strictly below [min] or strictly above [max],
    and returns if and only if every non-null entry lies within the
    inclusive bounds; null entries play no part.  For [Range(0, 150)] the
    entry [-5] fails, [150] passes and [151] fails.  This holds in both
    backends. *)
Theorem C5_range_validator :
  (forall (pd : Pandas.Api) (d : Pandas.Dtype) (entries : list (option Z))
          (r : Range) (c : string),
      (Pandas.apply_validator (mkSeries d (numbers entries)) (IsRange r) c
       = Raise (ValueError (Must_be_in_range c (min r) (max r)))
       <-> exists z, In (Some z) entries /\ (z < min r \/ max r < z)) /\
      (Pandas.apply_validator (mkSeries d (numbers entries)) (IsRange r) c
       = Return tt
       <-> forall z, In (Some z) entries -> min r <= z <= max r)) /\
  (forall (d : pl.DataType) (entries : list (option Z)) (r : Range) (c : string),
      (Polars.apply_validator (mkSeries d (numbers entries)) (IsRange r) c
       = Raise (ValueError (Must_be_in_range c (min r) (max r)))
       <-> exists z, In (Some z) entries /\ (z < min r \/ max r < z)) /\
      (Polars.apply_validator (mkSeries d (numbers entries)) (IsRange r) c
       = Return tt
       <-> forall z, In (Some z) entries -> min r <= z <= max r)) /\
  (forall (d : pl.DataType) (d' : PandasModel.dtype),
      let age := IsRange (mkRange 0 150) in
      Polars.apply_validator (mkSeries d (numbers [Some (-5)])) age "age"
      = Raise (ValueError (Must_be_in_range "age" 0 150)) /\
      Polars.apply_validator (mkSeries d (numbers [Some 150])) age "age"
      = Return tt /\
      Polars.apply_validator (mkSeries d (numbers [Some 151])) age "age"
      = Raise (ValueError (Must_be_in_range "age" 0 150)) /\
      Polars.apply_validator (mkSeries d (numbers [None; Some 150; None])) age "age"
      = Return tt /\
      Pandas.apply_validator (pd := PandasModel.pandas)
        (mkSeries d' (numbers [Some (-5)])) age "age"
      = Raise (ValueError (Must_be_in_range "age" 0 150)) /\
      Pandas.apply_validator (pd := PandasModel.pandas)
        (mkSeries d' (numbers [Some 150])) age "age"
      = Return tt /\
      Pandas.apply_validator (pd := PandasModel.pandas)
        (mkSeries d' (numbers [Some 151])) age "age"
      = Raise (ValueError (Must_be_in_range "age" 0 150)) /\
      Pandas.apply_validator (pd := PandasModel.pandas)
        (mkSeries d' (numbers [None; Some 150; None])) age "age"
      = Return tt).
Proof.
  split; [|split].
  - intros pd d entries r c. apply pandas_validate_range_numbers.
  - intros d entries r c. apply polars_validate_range_numbers.
  - intros d d'. repeat split.
Qed.

Lemma C5_range_validator_witness :
  Polars.apply_validator
    (mkSeries (pl.plain pl.Int64) (numbers [Some 25; Some 200; None; Some 30]))
    (IsRange (mkRange 0 150)) "age"
  = Raise (ValueError (Must_be_in_range "age" 0 150)) /\
  Pandas.apply_validator (pd := PandasModel.pandas)
    (mkSeries PandasModel.float64 (numbers [Some 25; None; Some 100]))
    (IsRange (mkRange 0 150)) "age"
  = Return tt.
Proof.
  split.
  - apply (proj1 (proj1 (proj2 C5_range_validator) (pl.plain pl.Int64)
                    [Some 25; Some 200; None; Some 30] (mkRange 0 150) "age")).
    exists 200. split; [simpl; auto | simpl; lia].
  - apply (proj2 (proj1 C5_range_validator PandasModel.pandas PandasModel.float64
                    [Some 25; None; Some 100] (mkRange 0 150) "age")).
    intros z Hz. simpl in Hz.
    destruct Hz as [Hz|[Hz|[Hz|[]]]]; try discriminate;
      injection Hz as <-; simpl; lia.
Defined.

(** C6, as amended.  On a column with an attached [Unique], the validator
    fails citing duplicate values if and only if some value appears more
    than once among the non-null entries or more than one entry is null:
    two null entries of a column count as duplicates of each other.  The
    column [1, 2, 2, 3] fails and [1, 2, 3, 4] passes.  This holds in both
    backends. *)
Theorem C6_unique_validator :
  (forall (pd : Pandas.Api) (series : Series Pandas.Dtype) (c : string),
      (Pandas.apply_validator series Unique c
       = Raise (ValueError (Duplicate_values c))
       <-> ~ NoDup (non_null (values series)) \/
           (2 <= missing (values series))%nat) /\
      (Pandas.apply_validator series Unique c = Return tt
       <-> NoDup (non_null (values series)) /\
           (missing (values series) <= 1)%nat)) /\
  (forall (series : Polars.Series) (c : string),
      (Polars.apply_validator series Unique c
       = Raise (ValueError (Duplicate_values c))
       <-> ~ NoDup (non_null (values series)) \/
           (2 <= missing (values series))%nat) /\
      (Polars.apply_validator series Unique c = Return tt
       <-> NoDup (non_null (values series)) /\
           (missing (values series) <= 1)%nat)) /\
  (forall (d : pl.DataType) (d' : PandasModel.dtype),
      Polars.apply_validator
        (mkSeries d (numbers [Some 1; Some 2; Some 2; Some 3])) Unique "user_id"
      = Raise (ValueError (Duplicate_values "user_id")) /\
      Polars.apply_validator
        (mkSeries d (numbers [Some 1; Some 2; Some 3; Some 4])) Unique "user_id"
      = Return tt /\
      Pandas.apply_validator (pd := PandasModel.pandas)
        (mkSeries d' (numbers [Some 1; Some 2; Some 2; Some 3])) Unique "user_id"
      = Raise (ValueError (Duplicate_values "user_id")) /\
      Pandas.apply_validator (pd := PandasModel.pandas)
        (mkSeries d' (numbers [Some 1; Some 2; Some 3; Some 4])) Unique "user_id"
      = Return tt).
Proof.
  assert (Hsplit : forall cells : list cell,
    ~ NoDup cells <-> ~ NoDup (non_null cells) \/ (2 <= missing cells)%nat).
  { intros cells. rewrite NoDup_cells. split.
    - intros H. destruct (Nat.le_gt_cases (missing cells) 1) as [Hle|Hgt].
      + left. intros Hnd. apply H. split; assumption.
      + right. lia.
    - intros [H|H] [Hnd Hle]; [auto | lia]. }
  split; [|split].
  - intros pd series c. simpl.
    rewrite <- Hsplit, <- NoDup_cells.
    destruct (pandas_validate_unique_spec series c) as [Hret Hraise].
    split; assumption.
  - intros series c. simpl.
    rewrite <- Hsplit, <- NoDup_cells.
    destruct (polars_validate_unique_spec series c) as [Hret Hraise].
    split; assumption.
  - intros d d'. repeat split.
Qed.

Lemma C6_unique_validator_witness :
  Polars.apply_validator
    (mkSeries (pl.plain pl.Int64) (numbers [Some 1; None; Some 2])) Unique "user_id"
  = Return tt.
Proof.
  apply (proj2 (proj1 (proj2 C6_unique_validator)
                  (mkSeries (pl.plain pl.Int64) (numbers [Some 1; None; Some 2]))
                  "user_id")).
  split.
  - simpl. repeat constructor; simpl; intuition discriminate.
  - unfold missing. simpl. lia.
Defined.

(** C6 as stated fails: in the column [1, None, None] no value appears
    more than once among the non-null entries, yet both backends raise
    the duplicate-values error, because the two nulls are duplicates of
    each other. *)
Lemma C6_counterexample :
  NoDup (non_null (numbers [Some 1; None; None])) /\
  Pandas.apply_validator (pd := PandasModel.pandas)
    (mkSeries PandasModel.float64 (numbers [Some 1; None; None])) Unique "user_id"
  = Raise (ValueError (Duplicate_values "user_id")) /\
  Polars.apply_validator
    (mkSeries (pl.plain pl.Int64) (numbers [Some 1; None; None])) Unique "user_id"
  = Raise (ValueError (Duplicate_values "user_id")).
Proof.
  repeat split. simpl. repeat constructor. simpl. tauto.
Qed.

(* ===================================================================== *)
(** ** Properties: the decomposition of a type annotation *)
(* ===================================================================== *)

(** C7, as amended.  The decomposer makes a single pass: it strips one
    metadata wrapper when that is the outermost layer, keeping its
    validators, then one two-member union with [None], setting the
    nullable flag, and returns what is left as the base type; it does not
    repeat, and it knows no not-required wrapper.  So for a concrete base
    type [T]: [T], [Annotated[T, ...]], [Optional[T]] and
    [Annotated[Optional[T], ...]] decompose to [T] with the validators and
    the flag; [Optional[Annotated[T, ...]]] decomposes to the base type
    [Annotated[T, ...]] with no validators; any other subscripted form is
    returned as it is.  In particular [Annotated[Optional[int], Range(0,
    100)]] gives [(int, [Range(0, 100)], True)] and
    [Optional[Annotated[int, Range(0, 100)]]] gives [(Annotated[int,
    Range(0, 100)], [], True)]. *)
Theorem C7_decomposer_is_single_pass :
  forall (native : Type) (T : annotation native) (metadata : list validator),
    is_concrete T = true ->
    _extract_type_and_validators T = (T, [], false) /\
    _extract_type_and_validators (Annotated T metadata) = (T, metadata, false) /\
    _extract_type_and_validators (Optional T) = (T, [], true) /\
    _extract_type_and_validators (Union [Class NoneType; T]) = (T, [], true) /\
    _extract_type_and_validators (Annotated (Optional T) metadata)
    = (T, metadata, true) /\
    _extract_type_and_validators (Optional (Annotated T metadata))
    = (Annotated T metadata, [], true) /\
    (forall origin : string,
        _extract_type_and_validators (Subscripted origin [T])
        = (Subscripted origin [T], [], false) /\
        _extract_type_and_validators (Annotated (Subscripted origin [T]) metadata)
        = (Subscripted origin [T], metadata, false)) /\
    _extract_type_and_validators
      (Annotated (Optional (Class py_int)) [IsRange (mkRange 0 100)])
    = (@Class native py_int, [IsRange (mkRange 0 100)], true) /\
    _extract_type_and_validators
      (Optional (Annotated (Class py_int) [IsRange (mkRange 0 100)]))
    = (@Annotated native (Class py_int) [IsRange (mkRange 0 100)], [], true).
Proof.
  intros native T metadata HT.
  destruct T as [c|n|inner m|args|origin args]; try discriminate.
  - destruct c; repeat split.
  - repeat split.
Qed.

Lemma C7_decomposer_is_single_pass_witness :
  _extract_type_and_validators (native := pl.DataTypeClass)
    (Annotated (Optional (Class py_str)) [Unique])
  = (Class py_str, [Unique], true) /\
  _extract_type_and_validators (native := pl.DataTypeClass)
    (Optional (Annotated (Class py_str) [Unique]))
  = (Annotated (Class py_str) [Unique], [], true).
Proof.
  pose proof (C7_decomposer_is_single_pass pl.DataTypeClass (Class py_str)
                [Unique] eq_refl) as (_ & _ & _ & _ & Houter & Hinner & _).
  split; [exact Houter | exact Hinner].
Defined.

(** C7 as stated fails: [Optional[Annotated[int, Range(0, 100)]]] does
    not decompose to base type [int] with validators [[Range(0, 100)]];
    the base type returned is the metadata wrapper itself, and the
    validator list is empty. *)
Lemma C7_counterexample :
  _extract_type_and_validators (native := pl.DataTypeClass)
    (Optional (Annotated (Class py_int) [IsRange (mkRange 0 100)]))
  <> (Class py_int, [IsRange (mkRange 0 100)], true) /\
  _extract_type_and_validators (native := pl.DataTypeClass)
    (Optional (Annotated (Class py_int) [IsRange (mkRange 0 100)]))
  = (Annotated (Class py_int) [IsRange (mkRange 0 100)], [], true).
Proof. split; [discriminate | reflexivity]. Qed.

(* ===================================================================== *)
(** ** Properties: the datetime predicate of the polars backend *)
(* ===================================================================== *)

(** C10.  The datetime predicate of the polars backend accepts exactly
    the dtypes that equal [pl.Datetime] or expose a [time_unit]
    attribute.  A [Duration] dtype carries a time unit, so it satisfies
    the checker of the declared base type [datetime], and a column of
    that dtype without nulls passes the column check of a column declared
    [datetime]. *)
Theorem C10_datetime_predicate_accepts_duration :
  (forall d : pl.DataType,
      Polars._is_datetime_dtype d = true <->
      pl.equals d pl.Datetime = true \/ pl.hasattr_time_unit d = true) /\
  (forall tu : pl.TimeUnit,
      pl.equals (pl.duration tu) pl.Datetime = false /\
      pl.hasattr_time_unit (pl.duration tu) = true /\
      exists type_checker,
        Polars.TYPE_CHECKERS (Class py_datetime) = Some type_checker /\
        type_checker (pl.duration tu) = true) /\
  (forall (tu : pl.TimeUnit) (df : Polars.DataFrame) (c : string)
          (cells : list cell),
      lookup df c = Some (mkSeries (pl.duration tu) cells) ->
      missing cells = 0%nat ->
      Polars._check_column_type df c (Class py_datetime) = Return tt).
Proof.
  split; [|split].
  - intros d. unfold Polars._is_datetime_dtype.
    destruct (pl.equals d pl.Datetime), (pl.hasattr_time_unit d);
      intuition discriminate.
  - intros tu. repeat split. eexists. split; reflexivity.
  - intros tu df c cells Hlookup Hnull.
    unfold Polars._check_column_type, getitem; simpl.
    rewrite Hlookup; simpl. unfold Polars.null_count; simpl.
    rewrite Hnull. reflexivity.
Qed.

Lemma C10_datetime_predicate_accepts_duration_witness :
  Polars._check_column_type
    [("elapsed", mkSeries (pl.duration pl.us) (numbers [Some 1; Some 2]))]
    "elapsed" (Class py_datetime)
  = Return tt.
Proof.
  apply (proj2 (proj2 C10_datetime_predicate_accepts_duration)
           pl.us _ "elapsed" (numbers [Some 1; Some 2]));
    reflexivity.
Defined.

(* ===================================================================== *)
(** ** Properties: strict mode of the typed wrapper *)
(* ===================================================================== *)




(* ===================================================================== *)
(** ** The tests of the repository, run on the model *)
(* ===================================================================== *)

Section PandasTests.

Import PandasModel.

(** [test_dataframe_with_schema_validates_correct_dataframe] *)
Example pandas_validates_correct_dataframe :
  Pandas.validate_dataframe (pd := pandas)
    [("a", mkSeries int64 (numbers [Some 1; Some 2; Some 3]))]
    Examples.SimpleSchema
  = Return tt.
Proof. reflexivity. Qed.

(** [test_dataframe_with_schema_raises_on_missing_column] *)
Example pandas_raises_on_missing_column :
  Pandas.validate_dataframe (pd := pandas)
    [("b", mkSeries int64 (numbers [Some 1; Some 2; Some 3]))]
    Examples.SimpleSchema
  = Raise (ValueError (Missing_column "a")).
Proof. reflexivity. Qed.

(** [test_dataframe_with_schema_raises_on_wrong_type] *)
Example pandas_raises_on_wrong_type :
  Pandas.validate_dataframe (pd := pandas) Examples.pd_letters Examples.SimpleSchema
  = Raise (TypeError (Expected_got "a" (Class py_int) object_)).
Proof. reflexivity. Qed.

(** [test_dataframe_with_extra_columns] *)
Example pandas_ignores_extra_columns :
  Pandas.validate_dataframe (pd := pandas)
    [("a", mkSeries int64 (numbers [Some 1; Some 2; Some 3]));
     ("b", mkSeries object_ [Some (Text "x"); Some (Text "y"); Some (Text "z")])]
    Examples.SimpleSchema
  = Return tt.
Proof. reflexivity. Qed.

(** [test_dataframe_datetime_types] and
    [test_dataframe_timedelta_type_raises_on_wrong_type] *)
Example pandas_datetime_types :
  let DatetimeSchema : Examples.pandas_schema :=
    [("created_at", Class py_datetime); ("event_date", Class py_date);
     ("duration", Class py_timedelta)] in
  Pandas.validate_dataframe (pd := pandas)
    [("created_at", mkSeries datetime64_ns (numbers [Some 1; Some 2]));
     ("event_date", mkSeries datetime64_ns (numbers [Some 1; Some 2]));
     ("duration", mkSeries timedelta64_ns (numbers [Some 1; Some 2]))]
    DatetimeSchema
  = Return tt /\
  Pandas.validate_dataframe (pd := pandas)
    [("created_at", mkSeries datetime64_ns (numbers [Some 1; Some 2]));
     ("event_date", mkSeries datetime64_ns (numbers [Some 1; Some 2]));
     ("duration", mkSeries float64 (numbers [Some 1; Some 2]))]
    DatetimeSchema
  = Raise (TypeError (Expected_got "duration" (Class py_timedelta) float64)).
Proof. split; reflexivity. Qed.

(** [test_dataframe_raises_on_null_values_in_str_column] *)
Example pandas_raises_on_null_in_str_column :
  Pandas.validate_dataframe (pd := pandas) Examples.pd_str_with_null Examples.SchemaWithStr
  = Raise (TypeError (Expected_got "b" (Class py_str) object_)).
Proof. reflexivity. Qed.

(** [test_dataframe_optional_int_accepts_null_values] and
    [test_dataframe_optional_type_raises_on_wrong_type] *)
Example pandas_optional_columns :
  Pandas.validate_dataframe (pd := pandas)
    [("user_id", mkSeries int64 (numbers [Some 1; Some 2; Some 3]));
     ("email", mkSeries object_
                 [Some (Text "a@b.com"); None; Some (Text "c@d.com")]);
     ("age", mkSeries float64 (numbers [Some 20; None; Some 30]))]
    Examples.OptionalSchema
  = Return tt /\
  Pandas.validate_dataframe (pd := pandas)
    [("user_id", mkSeries int64 (numbers [Some 1; Some 2; Some 3]));
     ("email", mkSeries object_
                 [Some (Text "a@b.com"); Some (Text "b@c.com");
                  Some (Text "c@d.com")]);
     ("age", mkSeries object_
               [Some (Text "20"); Some (Text "25"); Some (Text "30")])]
    Examples.OptionalSchema
  = Raise (TypeError (Expected_got "age" (Class py_int) object_)).
Proof. split; reflexivity. Qed.

(** [test_dataframe_pandas_categorical_dtype] and
    [test_dataframe_pandas_dtype_raises_on_wrong_type] *)
Example pandas_extension_dtypes :
  let PandasDtypeSchema : Examples.pandas_schema :=
    [("category", Native CategoricalDtype); ("value", Native Int64Dtype)] in
  Pandas.validate_dataframe (pd := pandas)
    [("category", mkSeries category
                    [Some (Text "A"); Some (Text "B"); Some (Text "A")]);
     ("value", mkSeries Int64 (numbers [Some 1; Some 2; None]))]
    PandasDtypeSchema
  = Return tt /\
  Pandas.validate_dataframe (pd := pandas)
    [("category", mkSeries object_
                    [Some (Text "A"); Some (Text "B"); Some (Text "A")]);
     ("value", mkSeries int64 (numbers [Some 1; Some 2; Some 3]))]
    PandasDtypeSchema
  = Raise (TypeError (Expected_class_got "category" CategoricalDtype object_)).
Proof. split; reflexivity. Qed.

End PandasTests.

(** [test_polars/test_validators.py] *)
Example polars_range_validator_tests :
  let int64 := pl.plain pl.Int64 in
  Polars.validate_dataframe
    [("age", mkSeries int64 (numbers [Some 25; Some 30; Some 45; Some 100]))]
    Examples.AgeSchema
  = Return tt /\
  Polars.validate_dataframe
    [("age", mkSeries int64 (numbers [Some 25; Some (-5); Some 30]))]
    Examples.AgeSchema
  = Raise (ValueError (Must_be_in_range "age" 0 150)) /\
  Polars.validate_dataframe
    [("age", mkSeries int64 (numbers [Some 25; Some 200; Some 30]))]
    Examples.AgeSchema
  = Raise (ValueError (Must_be_in_range "age" 0 150)).
Proof. repeat split. Qed.

Example polars_unique_validator_tests :
  let int64 := pl.plain pl.Int64 in
  let UserIdSchema : Polars.schema :=
    [("user_id", Annotated (Class py_int) [Unique])] in
  Polars.validate_dataframe
    [("user_id", mkSeries int64 (numbers [Some 1; Some 2; Some 3; Some 4]))]
    UserIdSchema
  = Return tt /\
  Polars.validate_dataframe
    [("user_id", mkSeries int64 (numbers [Some 1; Some 2; Some 2; Some 3]))]
    UserIdSchema
  = Raise (ValueError (Duplicate_values "user_id")).
Proof. repeat split. Qed.

(** A base type that is itself an annotation object is no key of
    [TYPE_CHECKERS]: a union is reported as unsupported, a metadata
    wrapper that holds a [Range] cannot even be hashed. *)
Example polars_unsupported_base_types :
  Polars.validate_dataframe Examples.pl_users
    [("user_id", Union [Class py_int; Class py_str])]
  = Raise (ValueError (Unsupported_type (Union [Class py_int; Class py_str]))) /\
  Polars.validate_dataframe Examples.pl_users
    [("age", Optional (Annotated (Class py_int) [IsRange (mkRange 0 150)]))]
  = Raise (TypeError Unhashable_type).
Proof. split; reflexivity. Qed.

(* ===================================================================== *)
(** ** Further properties: the value validators on arbitrary columns *)
(* ===================================================================== *)

Lemma for_each_returns_inv {E A : Type} (body : A -> result E unit)
    (xs : list A) :
  for_each body xs = Return tt -> Forall (fun x => body x = Return tt) xs.
Proof.
  induction xs as [|x xs IH]; simpl; [constructor|].
  destruct (body x) as [[]|e] eqn:Hx; simpl; [|discriminate].
  intros H. constructor; [exact Hx | exact (IH H)].
Qed.

Lemma In_numbers_inv (entries : list (option Z)) (x : scalar) :
  In (Some x) (numbers entries) -> exists z, x = Num z /\ In (Some z) entries.
Proof.
  unfold numbers. rewrite in_map_iff.
  intros ([z|] & Hz & Hin); simpl in Hz; [|discriminate].
  injection Hz as <-. eauto.
Qed.

(** A column is a column of numbers, or holds a text entry. *)
Lemma numbers_or_text (cells : list cell) :
  (exists entries, cells = numbers entries) \/
  (exists s, In (Some (Text s)) cells).
Proof.
  induction cells as [|c cells IH].
  - left. exists []. reflexivity.
  - destruct c as [[z|s]|].
    + destruct IH as [[entries ->] | [s Hs]].
      * left. exists (Some z :: entries). reflexivity.
      * right. exists s. now right.
    + right. exists s. now left.
    + destruct IH as [[entries ->] | [s Hs]].
      * left. exists (None :: entries). reflexivity.
      * right. exists s. now right.
Qed.

Lemma numbers_no_text (entries : list (option Z)) (s : string) :
  ~ In (Some (Text s)) (numbers entries).
Proof.
  intros H. apply In_numbers_inv in H. destruct H as (z & Hz & _). discriminate.
Qed.

Section PandasValidatorCases.

Context {pd : Pandas.Api}.

Lemma pandas_lt_text (bound : Z) (cells : list cell) (s : string) :
  In (Some (Text s)) cells ->
  map_each (Pandas.lt bound) cells = Raise (LibraryError Not_comparable).
Proof.
  induction cells as [|c cells IH]; [intros []|].
  intros [->|Hin]; [reflexivity|].
  simpl. destruct c as [[z|t]|]; simpl; try reflexivity;
    rewrite (IH Hin); reflexivity.
Qed.

(** The pandas range check on a column with a text entry ends in the
    comparison error of pandas. *)
Lemma pandas_validate_range_text (series : Series Pandas.Dtype) (r : Range)
    (col_name s : string) :
  In (Some (Text s)) (values series) ->
  Pandas._validate_range series r col_name = Raise (LibraryError Not_comparable).
Proof.
  intros H. unfold Pandas._validate_range.
  rewrite (pandas_lt_text _ _ _ H). reflexivity.
Qed.

Lemma pandas_returns_satisfied (series : Series Pandas.Dtype) (v : validator)
    (col_name : string) :
  Pandas.apply_validator series v col_name = Return tt ->
  satisfied (values series) v.
Proof.
  destruct v as [r| |name hashable]; simpl; intros H.
  - destruct (numbers_or_text (values series)) as [[entries He] | [s Hs]].
    + destruct series as [d cells]; simpl in *; subst cells.
      pose proof (proj1 (proj2 (pandas_validate_range_numbers _ _ _ _)) H) as Hall.
      intros x Hx. apply In_numbers_inv in Hx. destruct Hx as (z & -> & Hz).
      exists z. split; [reflexivity | exact (Hall z Hz)].
    + rewrite (pandas_validate_range_text _ _ _ _ Hs) in H. discriminate.
  - exact (proj1 (proj1 (pandas_validate_unique_spec series col_name)) H).
  - discriminate.
Qed.

End PandasValidatorCases.

Lemma polars_lt_text (bound : Z) (cells : list cell) (s : string) :
  In (Some (Text s)) cells ->
  map_each (Polars.lt bound) cells = Raise (LibraryError Not_comparable).
Proof.
  induction cells as [|c cells IH]; [intros []|].
  intros [->|Hin]; [reflexivity|].
  simpl. destruct c as [[z|t]|]; simpl; try reflexivity;
    rewrite (IH Hin); reflexivity.
Qed.

(** The polars range check on a column with a text entry ends in the
    comparison error of polars. *)
Lemma polars_validate_range_text (series : Polars.Series) (r : Range)
    (col_name s : string) :
  In (Some (Text s)) (values series) ->
  Polars._validate_range series r col_name = Raise (LibraryError Not_comparable).
Proof.
  intros H. unfold Polars._validate_range.
  rewrite (polars_lt_text _ _ _ H). reflexivity.
Qed.

Lemma polars_returns_satisfied (series : Polars.Series) (v : validator)
    (col_name : string) :
  Polars.apply_validator series v col_name = Return tt ->
  satisfied (values series) v.
Proof.
  destruct v as [r| |name hashable]; simpl; intros H.
  - destruct (numbers_or_text (values series)) as [[entries He] | [s Hs]].
    + destruct series as [d cells]; simpl in *; subst cells.
      pose proof (proj1 (proj2 (polars_validate_range_numbers _ _ _ _)) H) as Hall.
      intros x Hx. apply In_numbers_inv in Hx. destruct Hx as (z & -> & Hz).
      exists z. split; [reflexivity | exact (Hall z Hz)].
    + rewrite (polars_validate_range_text _ _ _ _ Hs) in H. discriminate.
  - exact (proj1 (proj1 (polars_validate_unique_spec series col_name)) H).
  - discriminate.
Qed.

(* ===================================================================== *)
(** ** Further properties: exactly which tables are accepted *)
(* ===================================================================== *)

Lemma polars_validators_satisfied (series : Polars.Series)
    (validators : list validator) (col_name : string) :
  for_each (fun v => Polars.apply_validator series v col_name) validators
  = Return tt ->
  Forall (satisfied (values series)) validators.
Proof.
  intros H. apply for_each_returns_inv in H. revert H. apply Forall_impl.
  intros v. apply polars_returns_satisfied.
Qed.

Lemma polars_accepts_iff (df : Polars.DataFrame)
    (item : string * Polars.annotation) :
  Polars.check_column df item = Return tt <-> polars_accepts df item.
Proof.
  destruct item as [col_name col_type].
  unfold polars_accepts, Polars.check_column, Polars._check_column_exists; simpl.
  destruct (_extract_type_and_validators col_type)
    as [[base_type validators] is_optional] eqn:Hex.
  split.
  - destruct (contains (columns df) col_name) eqn:Hc; simpl; [|discriminate].
    destruct (contains_lookup _ _ Hc) as [series Hlookup].
    intros H. exists series. split; [exact Hlookup|].
    destruct (Polars.TYPE_CHECKERS base_type) as [type_checker|] eqn:Hchk.
    + rewrite (polars_check_supported_type _ _ _ _ _ _ _ Hex Hchk) in H.
      unfold getitem in H. rewrite Hlookup in H; simpl in H.
      destruct (type_checker (dtype series)) eqn:Hd; simpl in H; [|discriminate].
      split; [right; eauto|].
      destruct is_optional; simpl in H.
      * split; [discriminate | now apply polars_validators_satisfied in H].
      * destruct (0 <? Polars.null_count series)%nat eqn:Hn; [discriminate|].
        apply Nat.ltb_ge in Hn.
        split; [intros _ _; lia | now apply polars_validators_satisfied in H].
    + unfold Polars._check_column_type in H. rewrite Hex in H.
      destruct base_type; cbv iota in H;
        try (rewrite Hchk in H; discriminate).
      unfold getitem in H. rewrite Hlookup in H; simpl in H.
      destruct (pl.equals (dtype series) n) eqn:Hd; simpl in H; [|discriminate].
      split; [left; eauto|].
      split; [intros _ Hkey; now elim Hkey |
              now apply polars_validators_satisfied in H].
  - intros (series & Hlookup & Hcompat & Hnull & Hvalid).
    rewrite (lookup_contains _ _ _ Hlookup); simpl.
    pose proof (polars_validators_return series validators col_name Hvalid)
      as Hloop.
    destruct Hcompat as [(cls & -> & Hcls) | (type_checker & Hchk & Hok)].
    + unfold Polars._check_column_type. rewrite Hex. unfold getitem.
      rewrite Hlookup; simpl. rewrite Hcls; simpl. exact Hloop.
    + rewrite (polars_check_supported_type _ _ _ _ _ _ _ Hex Hchk).
      unfold getitem. rewrite Hlookup; simpl. rewrite Hok; simpl.
      destruct is_optional; simpl; [exact Hloop|].
      rewrite (Hnull eq_refl); [exact Hloop | congruence].
Qed.

(** X1. The polars validator returns exactly on the tables in which every
    declared column is present with a compatible dtype, holds no null
    unless the declaration is optional or names a polars dtype class, and
    satisfies its validators. *)
Theorem polars_validate_returns_iff :
  forall (df : Polars.DataFrame) (schema : Polars.schema),
    Polars.validate_dataframe df schema = Return tt <->
    Forall (polars_accepts df) schema.
Proof.
  intros df schema. unfold Polars.validate_dataframe. split.
  - intros H. apply for_each_returns_inv in H. revert H.
    apply Forall_impl. intros item. apply polars_accepts_iff.
  - intros H. apply for_each_returns. revert H.
    apply Forall_impl. intros item. apply polars_accepts_iff.
Qed.

Lemma polars_validate_returns_iff_witness :
  Forall (polars_accepts Examples.pl_users) Examples.UserSchema.
Proof.
  apply (proj1 (polars_validate_returns_iff Examples.pl_users Examples.UserSchema)).
  reflexivity.
Defined.

Section PandasAcceptance.

Context {pd : Pandas.Api}.

Lemma pandas_validators_satisfied (series : Series Pandas.Dtype)
    (validators : list validator) (col_name : string) :
  for_each (fun v => Pandas.apply_validator series v col_name) validators
  = Return tt ->
  Forall (satisfied (values series)) validators.
Proof.
  intros H. apply for_each_returns_inv in H. revert H. apply Forall_impl.
  intros v. apply pandas_returns_satisfied.
Qed.

Lemma pandas_check_dtype_returns (type_checker : Pandas.arr_or_dtype Pandas.Dtype -> bool)
    (series : Series Pandas.Dtype) (col_name : string)
    (base_type : Pandas.annotation) (is_optional : bool) :
  Pandas.check_dtype type_checker series col_name base_type is_optional
  = Return tt ->
  type_checker (Pandas.arr series) = true \/
  (is_optional = true /\ base_type = Class py_int /\
   Pandas.is_float_dtype (Pandas.dt (dtype series)) = true) \/
  (is_optional = true /\ base_type = Class py_str).
Proof.
  unfold Pandas.check_dtype.
  destruct (type_checker (Pandas.arr series)); simpl; [auto|].
  destruct is_optional; simpl; [|discriminate].
  destruct base_type as [[]| | | |]; simpl; try discriminate.
  - destruct (Pandas.is_float_dtype (Pandas.dt (dtype series)));
      [auto | discriminate].
  - auto.
Qed.

Lemma pandas_conforms_iff (df : DataFrame Pandas.Dtype)
    (item : string * Pandas.annotation) :
  Pandas.check_column df item = Return tt <-> pandas_conforms df item.
Proof.
  split; [|apply pandas_conforming_column].
  destruct item as [col_name col_type].
  unfold pandas_conforms, Pandas.check_column, Pandas._check_column_exists; simpl.
  destruct (_extract_type_and_validators col_type)
    as [[base_type validators] is_optional] eqn:Hex.
  destruct (contains (columns df) col_name) eqn:Hc; simpl; [|discriminate].
  destruct (contains_lookup _ _ Hc) as [series Hlookup].
  intros H. exists series. split; [exact Hlookup|].
  destruct (Pandas.TYPE_CHECKERS base_type) as [type_checker|] eqn:Hchk.
  - rewrite (pandas_check_supported_type _ _ _ _ _ _ _ Hex Hchk) in H.
    unfold getitem in H. rewrite Hlookup in H; simpl in H.
    destruct (Pandas.check_dtype type_checker series col_name base_type is_optional)
      as [[]|e] eqn:Hd; simpl in H; [|discriminate].
    apply pandas_check_dtype_returns in Hd.
    split; [right; eauto | now apply pandas_validators_satisfied in H].
  - unfold Pandas._check_column_type in H. rewrite Hex in H.
    destruct base_type; cbv iota in H; try (rewrite Hchk in H; discriminate).
    unfold getitem in H. rewrite Hlookup in H; simpl in H.
    destruct (Pandas.type_is (dtype series) n) eqn:Hd; simpl in H; [|discriminate].
    split; [left; eauto | now apply pandas_validators_satisfied in H].
Qed.

End PandasAcceptance.

(** X2. The pandas validator returns exactly on the tables in which every
    declared column is present with a compatible dtype (the optional
    leniency for [int] and [str] included) and satisfies its validators;
    nulls play no part of their own. *)
Theorem pandas_validate_returns_iff :
  forall (pd : Pandas.Api) (df : DataFrame Pandas.Dtype)
         (schema : Typing.schema Pandas.ExtensionDtype),
    Pandas.validate_dataframe df schema = Return tt <->
    Forall (pandas_conforms df) schema.
Proof.
  intros pd df schema. unfold Pandas.validate_dataframe. split.
  - intros H. apply for_each_returns_inv in H. revert H.
    apply Forall_impl. intros item. apply pandas_conforms_iff.
  - intros H. apply for_each_returns. revert H.
    apply Forall_impl. intros item. apply pandas_conforms_iff.
Qed.

Lemma pandas_validate_returns_iff_witness :
  Forall (pandas_conforms (pd := PandasModel.pandas) Examples.pd_users)
         Examples.UserSchema.
Proof.
  apply (proj1 (pandas_validate_returns_iff PandasModel.pandas
                  Examples.pd_users Examples.UserSchema)).
  reflexivity.
Defined.

(* ===================================================================== *)
(** ** Further properties: what of the table the validator looks at *)
(* ===================================================================== *)

Lemma for_each_ext_in {E A : Type} (f g : A -> result E unit) (xs : list A) :
  (forall x, In x xs -> f x = g x) -> for_each f xs = for_each g xs.
Proof.
  induction xs as [|x xs IH]; intros H; simpl; [reflexivity|].
  rewrite (H x (or_introl eq_refl)), IH; [reflexivity|].
  intros y Hy. apply H. now right.
Qed.

Section LookupFacts.

Context {D : Type}.

Lemma contains_lookup_eq (df : DataFrame D) (col_name : string) :
  contains (columns df) col_name
  = match lookup df col_name with Some _ => true | None => false end.
Proof.
  induction df as [|[name s] df IH]; simpl; [reflexivity|].
  destruct (String.eqb col_name name); simpl; [reflexivity | exact IH].
Qed.

Lemma lookup_app (df extra : DataFrame D) (col_name : string) :
  lookup (df ++ extra) col_name
  = match lookup df col_name with
    | Some series => Some series
    | None => lookup extra col_name
    end.
Proof.
  induction df as [|[name s] df IH]; simpl; [reflexivity|].
  destruct (String.eqb col_name name); [reflexivity | exact IH].
Qed.

Lemma lookup_absent (df : DataFrame D) (col_name : string) :
  ~ In col_name (columns df) -> lookup df col_name = None.
Proof.
  intros H. destruct (lookup df col_name) as [series|] eqn:Hl; [|reflexivity].
  exfalso. apply H. apply contains_In. exact (lookup_contains _ _ _ Hl).
Qed.

(** With distinct column names, the column that a name selects does not
    depend on the order of the columns. *)
Lemma lookup_permutation (df df' : DataFrame D) (col_name : string) :
  NoDup (columns df) -> Permutation df df' ->
  lookup df col_name = lookup df' col_name.
Proof.
  intros Hnd Hperm. induction Hperm as [|[n s] l l' Hp IH|[n s] [n' s'] l|l l' l'' H1 IH1 H2 IH2].
  - reflexivity.
  - simpl. destruct (String.eqb col_name n); [reflexivity|].
    apply IH. now inversion Hnd.
  - simpl. destruct (String.eqb_spec col_name n') as [->|Hn']; [|reflexivity].
    destruct (String.eqb_spec n' n) as [->|Hn]; [|reflexivity].
    exfalso. unfold columns in Hnd; simpl in Hnd.
    inversion Hnd as [|? ? Hin _]. apply Hin. now left.
  - rewrite IH1 by assumption. apply IH2.
    unfold columns in *.
    exact (Permutation_NoDup (Permutation_map fst H1) Hnd).
Qed.

End LookupFacts.

Lemma pandas_check_column_agree {pd : Pandas.Api}
    (df df' : DataFrame Pandas.Dtype) (item : string * Pandas.annotation) :
  lookup df (fst item) = lookup df' (fst item) ->
  Pandas.check_column df item = Pandas.check_column df' item.
Proof.
  destruct item as [col_name col_type]; simpl. intros H.
  unfold Pandas.check_column, Pandas._check_column_exists,
    Pandas._check_column_type, getitem.
  rewrite !contains_lookup_eq, H. reflexivity.
Qed.

Lemma polars_check_column_agree
    (df df' : Polars.DataFrame) (item : string * Polars.annotation) :
  lookup df (fst item) = lookup df' (fst item) ->
  Polars.check_column df item = Polars.check_column df' item.
Proof.
  destruct item as [col_name col_type]; simpl. intros H.
  unfold Polars.check_column, Polars._check_column_exists,
    Polars._check_column_type, getitem.
  rewrite !contains_lookup_eq, H. reflexivity.
Qed.

(** X3. Two tables that hold the same column under every name that the schema
    declares get the same verdict, error included: the columns that the
    schema does not declare are never looked at.  This holds in both
    backends. *)
Theorem undeclared_columns_are_ignored :
  (forall (pd : Pandas.Api) (df df' : DataFrame Pandas.Dtype)
          (schema : Typing.schema Pandas.ExtensionDtype),
      (forall c, In c (map fst schema) -> lookup df c = lookup df' c) ->
      Pandas.validate_dataframe df schema = Pandas.validate_dataframe df' schema) /\
  (forall (df df' : Polars.DataFrame) (schema : Polars.schema),
      (forall c, In c (map fst schema) -> lookup df c = lookup df' c) ->
      Polars.validate_dataframe df schema = Polars.validate_dataframe df' schema).
Proof.
  split.
  - intros pd df df' schema H. apply for_each_ext_in. intros item Hitem.
    apply pandas_check_column_agree. apply H. now apply in_map.
  - intros df df' schema H. apply for_each_ext_in. intros item Hitem.
    apply polars_check_column_agree. apply H. now apply in_map.
Qed.

Lemma undeclared_columns_are_ignored_witness :
  Polars.validate_dataframe Examples.pl_with_extra Examples.SimpleSchema
  = Polars.validate_dataframe
      [("a", mkSeries (pl.plain pl.Int64) (numbers [Some 1]))]
      Examples.SimpleSchema.
Proof.
  apply (proj2 undeclared_columns_are_ignored).
  intros c [<-|[]]. reflexivity.
Defined.

(** Appending to the table columns whose names the schema does not
    declare changes nothing, in both backends. *)
Theorem appended_columns_change_nothing :
  (forall (pd : Pandas.Api) (df extra : DataFrame Pandas.Dtype)
          (schema : Typing.schema Pandas.ExtensionDtype),
      (forall c, In c (map fst schema) -> ~ In c (columns extra)) ->
      Pandas.validate_dataframe (df ++ extra) schema
      = Pandas.validate_dataframe df schema) /\
  (forall (df extra : Polars.DataFrame) (schema : Polars.schema),
      (forall c, In c (map fst schema) -> ~ In c (columns extra)) ->
      Polars.validate_dataframe (df ++ extra) schema
      = Polars.validate_dataframe df schema).
Proof.
  split.
  - intros pd df extra schema H. apply for_each_ext_in. intros item Hitem.
    apply pandas_check_column_agree. rewrite lookup_app.
    rewrite (lookup_absent extra); [now destruct (lookup df (fst item))|].
    apply H. now apply in_map.
  - intros df extra schema H. apply for_each_ext_in. intros item Hitem.
    apply polars_check_column_agree. rewrite lookup_app.
    rewrite (lookup_absent extra); [now destruct (lookup df (fst item))|].
    apply H. now apply in_map.
Qed.

Lemma appended_columns_change_nothing_witness :
  Polars.validate_dataframe
    ([("a", mkSeries (pl.plain pl.Int64) (numbers [Some 1]))]
       ++ [("extra", mkSeries (pl.plain pl.Utf8) [Some (Text "x")])])
    Examples.SimpleSchema
  = Polars.validate_dataframe
      [("a", mkSeries (pl.plain pl.Int64) (numbers [Some 1]))]
      Examples.SimpleSchema.
Proof.
  apply (proj2 appended_columns_change_nothing).
  intros c [<-|[]] [H|[]]. discriminate.
Defined.

(** X4. When the column names of a table are distinct, the order of its
    columns has no influence on the verdict, in both backends. *)
Theorem column_order_is_irrelevant :
  (forall (pd : Pandas.Api) (df df' : DataFrame Pandas.Dtype)
          (schema : Typing.schema Pandas.ExtensionDtype),
      NoDup (columns df) -> Permutation df df' ->
      Pandas.validate_dataframe df schema = Pandas.validate_dataframe df' schema) /\
  (forall (df df' : Polars.DataFrame) (schema : Polars.schema),
      NoDup (columns df) -> Permutation df df' ->
      Polars.validate_dataframe df schema = Polars.validate_dataframe df' schema).
Proof.
  split.
  - intros pd df df' schema Hnd Hperm. apply for_each_ext_in. intros item _.
    apply pandas_check_column_agree. now apply lookup_permutation.
  - intros df df' schema Hnd Hperm. apply for_each_ext_in. intros item _.
    apply polars_check_column_agree. now apply lookup_permutation.
Qed.

Lemma column_order_is_irrelevant_witness :
  Polars.validate_dataframe Examples.pl_users Examples.UserSchema
  = Polars.validate_dataframe
      [("age", mkSeries (pl.plain pl.Int64) (numbers [Some 20; None; Some 30]));
       ("user_id", mkSeries (pl.plain pl.Int64) (numbers [Some 1; Some 2; Some 3]))]
      Examples.UserSchema.
Proof.
  apply (proj2 column_order_is_irrelevant).
  - unfold columns. simpl. constructor; [simpl; intros [H|[]]; discriminate|].
    constructor; [intros [] | constructor].
  - apply perm_swap.
Defined.

(** X5. A table accepted under a schema is accepted under every schema whose
    declarations all occur in it, whatever their order: the typed frame
    is covariant in its schema.  This holds in both backends. *)
Theorem sub_schema_is_accepted :
  (forall (pd : Pandas.Api) (df : DataFrame Pandas.Dtype)
          (child parent : Typing.schema Pandas.ExtensionDtype),
      Pandas.validate_dataframe df child = Return tt ->
      incl parent child ->
      Pandas.validate_dataframe df parent = Return tt) /\
  (forall (df : Polars.DataFrame) (child parent : Polars.schema),
      Polars.validate_dataframe df child = Return tt ->
      incl parent child ->
      Polars.validate_dataframe df parent = Return tt).
Proof.
  split.
  - intros pd df child parent H Hincl. apply for_each_returns.
    apply for_each_returns_inv in H. rewrite Forall_forall in *.
    intros item Hitem. apply H, Hincl, Hitem.
  - intros df child parent H Hincl. apply for_each_returns.
    apply for_each_returns_inv in H. rewrite Forall_forall in *.
    intros item Hitem. apply H, Hincl, Hitem.
Qed.

Lemma sub_schema_is_accepted_witness :
  Polars.validate_dataframe Examples.pl_users
    [("age", Annotated (Optional (Class py_int)) [IsRange (mkRange 0 150)])]
  = Return tt.
Proof.
  apply (proj2 sub_schema_is_accepted Examples.pl_users Examples.UserSchema).
  - reflexivity.
  - intros item [<-|[]]. right. left. reflexivity.
Defined.

(* ===================================================================== *)
(** ** Further properties: every error tells the truth *)
(* ===================================================================== *)

(** What a polars value validator does when it raises. *)
Lemma polars_validator_raise_cases (series : Polars.Series) (v : validator)
    (col_name : string) (e : Polars.exn) :
  Polars.apply_validator series v col_name = Raise e ->
  (exists r, v = IsRange r /\
     ((e = ValueError (Must_be_in_range col_name (min r) (max r)) /\
       exists z, In (Some (Num z)) (values series) /\ (z < min r \/ max r < z)) \/
      (e = LibraryError Not_comparable /\
       exists s, In (Some (Text s)) (values series)))) \/
  (v = Unique /\ e = ValueError (Duplicate_values col_name) /\
   ~ NoDup (values series)) \/
  (exists name hashable, v = Unrecognized name hashable /\
                         e = ValueError (Unknown_validator v)).
Proof.
  destruct v as [r| |name hashable]; simpl; intros H.
  - left. exists r. split; [reflexivity|].
    destruct (numbers_or_text (values series)) as [[entries He] | [s Hs]].
    + left. destruct series as [d cells]; simpl in *; subst cells.
      destruct (polars_validate_range_numbers d entries r col_name)
        as [Hraise Hret].
      assert (He : e = ValueError (Must_be_in_range col_name (min r) (max r))).
      { unfold Polars._validate_range in H; simpl in H.
        rewrite polars_lt_numbers in H; simpl in H.
        destruct (Polars.any _); [congruence|].
        rewrite polars_gt_numbers in H; simpl in H.
        destruct (Polars.any _); [congruence | discriminate]. }
      split; [exact He|]. subst e. apply Hraise in H.
      destruct H as (z & Hz & Hb). exists z. split; [|exact Hb].
      now apply In_numbers.
    + right. rewrite (polars_validate_range_text _ _ _ _ Hs) in H.
      injection H as <-. eauto.
  - right. left. unfold Polars._validate_unique in H.
    destruct (Frames.any (Polars.is_duplicated series)) eqn:Hd; [|discriminate].
    injection H as <-. repeat split.
    intros Hnd. apply is_duplicated_none in Hnd. congruence.
  - right. right. injection H as <-. eauto.
Qed.

(** What the polars column check does when it raises. *)
Lemma polars_check_column_type_raise (df : Polars.DataFrame) (col_name : string)
    (col_type base_type : Polars.annotation) (validators : list validator)
    (is_optional : bool) (e : Polars.exn) :
  _extract_type_and_validators col_type = (base_type, validators, is_optional) ->
  Polars._check_column_type df col_name col_type = Raise e ->
  (e = not_in_TYPE_CHECKERS base_type /\
   Polars.TYPE_CHECKERS base_type = None /\
   forall cls, base_type <> Native cls) \/
  (e = LibraryError (No_such_column col_name) /\ lookup df col_name = None) \/
  (exists series,
      lookup df col_name = Some series /\
      e = TypeError (Expected_got col_name base_type (dtype series)) /\
      ~ polars_compatible base_type (dtype series)) \/
  (exists series,
      lookup df col_name = Some series /\
      e = TypeError (Non_optional_nulls col_name) /\
      is_optional = false /\ (0 < Polars.null_count series)%nat) \/
  (exists series v,
      lookup df col_name = Some series /\
      In v validators /\
      Polars.apply_validator series v col_name = Raise e).
Proof.
  intros Hex H.
  assert (Hloop : forall series,
    lookup df col_name = Some series ->
    for_each (fun v => Polars.apply_validator series v col_name) validators
    = Raise e ->
    exists series v, lookup df col_name = Some series /\ In v validators /\
                     Polars.apply_validator series v col_name = Raise e).
  { intros series Hl Hv. apply for_each_raise_inv in Hv.
    destruct Hv as (pre & v & post & -> & _ & Hv).
    exists series, v. repeat split; [exact Hl | apply in_elt | exact Hv]. }
  destruct (Polars.TYPE_CHECKERS base_type) as [type_checker|] eqn:Hchk.
  - rewrite (polars_check_supported_type _ _ _ _ _ _ _ Hex Hchk) in H.
    unfold getitem in H.
    destruct (lookup df col_name) as [series|] eqn:Hl; simpl in H;
      [|injection H as <-; auto].
    destruct (type_checker (dtype series)) eqn:Hd; simpl in H.
    + destruct is_optional; simpl in H; [do 4 right; eauto|].
      destruct (0 <? Polars.null_count series)%nat eqn:Hn;
        [|do 4 right; eauto].
      injection H as <-. apply Nat.ltb_lt in Hn.
      do 3 right. left. exists series. auto.
    + injection H as <-. do 2 right. left. exists series.
      repeat split. intros [(cls & -> & _) | (chk & Hchk' & Hok)].
      * simpl in Hchk. discriminate.
      * congruence.
  - unfold Polars._check_column_type in H. rewrite Hex in H.
    destruct base_type; cbv iota in H;
      try (rewrite Hchk in H; injection H as <-; left;
           repeat split; discriminate).
    unfold getitem in H.
    destruct (lookup df col_name) as [series|] eqn:Hl; simpl in H;
      [|injection H as <-; auto].
    destruct (pl.equals (dtype series) n) eqn:Hd; simpl in H;
      [do 4 right; eauto|].
    injection H as <-. do 2 right. left. exists series.
    repeat split. intros [(cls & Hcls & Hok) | (chk & Hchk' & _)].
    + injection Hcls as <-. congruence.
    + simpl in Hchk'. discriminate.
Qed.

(** What the check of one declared column does when it raises: the
    missing-column error, or an error of the dtype, null and validator
    checks on a column that is present. *)
Lemma polars_check_column_raise_cases (df : Polars.DataFrame)
    (item : string * Polars.annotation) (e : Polars.exn) :
  Polars.check_column df item = Raise e ->
  (e = ValueError (Missing_column (fst item)) /\
   contains (columns df) (fst item) = false) \/
  (contains (columns df) (fst item) = true /\
   Polars._check_column_type df (fst item) (snd item) = Raise e).
Proof.
  destruct item as [col_name col_type]; simpl.
  unfold Polars.check_column, Polars._check_column_exists.
  destruct (contains (columns df) col_name); simpl; intros H.
  - right. auto.
  - left. injection H as <-. auto.
Qed.

Lemma not_in_TYPE_CHECKERS_cases {native D : Type} (base_type : annotation native) :
  @not_in_TYPE_CHECKERS native D base_type = ValueError (Unsupported_type base_type) \/
  @not_in_TYPE_CHECKERS native D base_type = TypeError Unhashable_type.
Proof. unfold not_in_TYPE_CHECKERS. destruct (hashable base_type); auto. Qed.

Section PandasErrorCases.

Context {pd : Pandas.Api}.

(** What a pandas value validator does when it raises. *)
Lemma pandas_validator_raise_cases (series : Series Pandas.Dtype)
    (v : validator) (col_name : string) (e : Pandas.exn) :
  Pandas.apply_validator series v col_name = Raise e ->
  (exists r, v = IsRange r /\
     ((e = ValueError (Must_be_in_range col_name (min r) (max r)) /\
       exists z, In (Some (Num z)) (values series) /\ (z < min r \/ max r < z)) \/
      (e = LibraryError Not_comparable /\
       exists s, In (Some (Text s)) (values series)))) \/
  (v = Unique /\ e = ValueError (Duplicate_values col_name) /\
   ~ NoDup (values series)) \/
  (exists name hashable, v = Unrecognized name hashable /\
                         e = ValueError (Unknown_validator v)).
Proof.
  destruct v as [r| |name hashable]; simpl; intros H.
  - left. exists r. split; [reflexivity|].
    destruct (numbers_or_text (values series)) as [[entries He] | [s Hs]].
    + left. destruct series as [d cells]; simpl in *; subst cells.
      destruct (pandas_validate_range_numbers d entries r col_name)
        as [Hraise Hret].
      assert (He : e = ValueError (Must_be_in_range col_name (min r) (max r))).
      { unfold Pandas._validate_range in H; simpl in H.
        rewrite pandas_lt_numbers in H; simpl in H.
        destruct (Frames.any _); [congruence|].
        rewrite pandas_gt_numbers in H; simpl in H.
        destruct (Frames.any _); [congruence | discriminate]. }
      split; [exact He|]. subst e. apply Hraise in H.
      destruct H as (z & Hz & Hb). exists z. split; [|exact Hb].
      now apply In_numbers.
    + right. rewrite (pandas_validate_range_text _ _ _ _ Hs) in H.
      injection H as <-. eauto.
  - right. left. unfold Pandas._validate_unique in H.
    destruct (Frames.any (Pandas.duplicated series)) eqn:Hd; [|discriminate].
    injection H as <-. repeat split.
    intros Hnd.
    assert (Frames.any (Pandas.duplicated series) = false)
      by (apply duplicated_after_none; split; [assumption | intros c _ []]).
    congruence.
  - right. right. injection H as <-. eauto.
Qed.

(** What the pandas column check does when it raises. *)
Lemma pandas_check_column_type_raise (df : DataFrame Pandas.Dtype)
    (col_name : string) (col_type base_type : Pandas.annotation)
    (validators : list validator) (is_optional : bool) (e : Pandas.exn) :
  _extract_type_and_validators col_type = (base_type, validators, is_optional) ->
  Pandas._check_column_type df col_name col_type = Raise e ->
  (e = not_in_TYPE_CHECKERS base_type /\
   Pandas.TYPE_CHECKERS base_type = None /\
   forall ext, base_type <> Native ext) \/
  (e = LibraryError (No_such_column col_name) /\ lookup df col_name = None) \/
  (exists series,
      lookup df col_name = Some series /\
      (e = TypeError (Expected_got col_name base_type (dtype series)) \/
       exists ext, base_type = Native ext /\
                   e = TypeError (Expected_class_got col_name ext (dtype series))) /\
      ~ pandas_compatible base_type is_optional series) \/
  (exists series v,
      lookup df col_name = Some series /\
      In v validators /\
      Pandas.apply_validator series v col_name = Raise e).
Proof.
  intros Hex H.
  assert (Hloop : forall series,
    lookup df col_name = Some series ->
    for_each (fun v => Pandas.apply_validator series v col_name) validators
    = Raise e ->
    exists series v, lookup df col_name = Some series /\ In v validators /\
                     Pandas.apply_validator series v col_name = Raise e).
  { intros series Hl Hv. apply for_each_raise_inv in Hv.
    destruct Hv as (pre & v & post & -> & _ & Hv).
    exists series, v. repeat split; [exact Hl | apply in_elt | exact Hv]. }
  destruct (Pandas.TYPE_CHECKERS base_type) as [type_checker|] eqn:Hchk.
  - rewrite (pandas_check_supported_type _ _ _ _ _ _ _ Hex Hchk) in H.
    unfold getitem in H.
    destruct (lookup df col_name) as [series|] eqn:Hl; simpl in H;
      [|injection H as <-; auto].
    destruct (Pandas.check_dtype type_checker series col_name base_type is_optional)
      as [[]|e'] eqn:Hd; simpl in H; [do 3 right; eauto|].
    injection H as <-. do 2 right. left. exists series.
    split; [reflexivity|].
    unfold Pandas.check_dtype in Hd.
    destruct (type_checker (Pandas.arr series)) eqn:Hok; simpl in Hd;
      [discriminate|].
    destruct (is_optional && Pandas.is_int base_type &&
              Pandas.is_float_dtype (Pandas.dt (dtype series))) eqn:H1;
      [discriminate|].
    destruct (is_optional && Pandas.is_str base_type && isinstance_object (dtype series))
      eqn:H2; [discriminate|].
    injection Hd as <-. split; [left; reflexivity|].
    intros [(ext & -> & _) | (chk & Hchk' & Hcases)].
    + simpl in Hchk. discriminate.
    + assert (chk = type_checker) by congruence. subst chk.
      destruct Hcases as [Hc | [(-> & -> & Hf) | (-> & ->)]].
      * congruence.
      * simpl in H1. congruence.
      * simpl in H2. discriminate.
  - unfold Pandas._check_column_type in H. rewrite Hex in H.
    destruct base_type; cbv iota in H;
      try (rewrite Hchk in H; injection H as <-; left;
           repeat split; discriminate).
    unfold getitem in H.
    destruct (lookup df col_name) as [series|] eqn:Hl; simpl in H;
      [|injection H as <-; auto].
    destruct (Pandas.type_is (dtype series) n) eqn:Hd; simpl in H;
      [do 3 right; eauto|].
    injection H as <-. do 2 right. left. exists series.
    split; [reflexivity|]. split; [right; eauto|].
    intros [(ext & Hext & Hok) | (chk & Hchk' & _)].
    + injection Hext as <-. congruence.
    + simpl in Hchk'. discriminate.
Qed.

Lemma pandas_check_column_raise_cases (df : DataFrame Pandas.Dtype)
    (item : string * Pandas.annotation) (e : Pandas.exn) :
  Pandas.check_column df item = Raise e ->
  (e = ValueError (Missing_column (fst item)) /\
   contains (columns df) (fst item) = false) \/
  (contains (columns df) (fst item) = true /\
   Pandas._check_column_type df (fst item) (snd item) = Raise e).
Proof.
  destruct item as [col_name col_type]; simpl.
  unfold Pandas.check_column, Pandas._check_column_exists.
  destruct (contains (columns df) col_name); simpl; intros H.
  - right. auto.
  - left. injection H as <-. auto.
Qed.

End PandasErrorCases.

(** No case of the analyses above produces the error at hand. *)
Ltac wrong_error :=
  repeat match goal with
  | H : _ /\ _ |- _ => destruct H
  | H : _ \/ _ |- _ => destruct H
  | H : exists _, _ |- _ => destruct H
  | H : ?e = @not_in_TYPE_CHECKERS ?n ?D ?b |- _ =>
      destruct (@not_in_TYPE_CHECKERS_cases n D b) as [Hk|Hk]; rewrite Hk in H;
      clear Hk
  end;
  congruence.

(** X6. A missing-column error names a column that the schema declares and
    the table lacks, and every column declared before it passed its
    checks.  This holds in both backends. *)
Theorem missing_column_error_is_truthful :
  (forall (pd : Pandas.Api) (df : DataFrame Pandas.Dtype)
          (schema : Typing.schema Pandas.ExtensionDtype) (c : string),
      Pandas.validate_dataframe df schema = Raise (ValueError (Missing_column c)) ->
      contains (columns df) c = false /\
      exists pre col_type post,
        schema = pre ++ (c, col_type) :: post /\
        Forall (fun item => Pandas.check_column df item = Return tt) pre) /\
  (forall (df : Polars.DataFrame) (schema : Polars.schema) (c : string),
      Polars.validate_dataframe df schema = Raise (ValueError (Missing_column c)) ->
      contains (columns df) c = false /\
      exists pre col_type post,
        schema = pre ++ (c, col_type) :: post /\
        Forall (fun item => Polars.check_column df item = Return tt) pre).
Proof.
  split.
  - intros pd df schema c H. apply for_each_raise_inv in H.
    destruct H as (pre & [name col_type] & post & -> & Hpre & Hitem).
    apply pandas_check_column_raise_cases in Hitem; simpl in Hitem.
    destruct Hitem as [[He Hc] | [Hc Ht]].
    + injection He as ->. split; [exact Hc | eauto].
    + exfalso.
      destruct (_extract_type_and_validators col_type) as [[b vs] o] eqn:Hex.
      apply (pandas_check_column_type_raise _ _ _ _ _ _ _ Hex) in Ht.
      destruct Ht as [Ht | [Ht | [Ht | (series & v & _ & _ & Hv)]]];
        try wrong_error.
      apply pandas_validator_raise_cases in Hv. wrong_error.
  - intros df schema c H. apply for_each_raise_inv in H.
    destruct H as (pre & [name col_type] & post & -> & Hpre & Hitem).
    apply polars_check_column_raise_cases in Hitem; simpl in Hitem.
    destruct Hitem as [[He Hc] | [Hc Ht]].
    + injection He as ->. split; [exact Hc | eauto].
    + exfalso.
      destruct (_extract_type_and_validators col_type) as [[b vs] o] eqn:Hex.
      apply (polars_check_column_type_raise _ _ _ _ _ _ _ Hex) in Ht.
      destruct Ht as [Ht | [Ht | [Ht | [Ht | (series & v & _ & _ & Hv)]]]];
        try wrong_error.
      apply polars_validator_raise_cases in Hv. wrong_error.
Qed.

Lemma missing_column_error_is_truthful_witness :
  contains (columns Examples.pl_users) "email" = false /\
  exists pre col_type post,
    Examples.OptionalSchema = pre ++ ("email", col_type) :: post /\
    Forall (fun item => Polars.check_column Examples.pl_users item = Return tt) pre.
Proof.
  apply (proj2 missing_column_error_is_truthful
           Examples.pl_users Examples.OptionalSchema "email").
  reflexivity.
Defined.

(** X7. In the polars backend a null error names a declared column whose
    declaration is not optional and which does hold a null. *)
Theorem polars_null_error_is_truthful :
  forall (df : Polars.DataFrame) (schema : Polars.schema) (c : string),
    Polars.validate_dataframe df schema = Raise (TypeError (Non_optional_nulls c)) ->
    exists col_type series,
      In (c, col_type) schema /\
      snd (_extract_type_and_validators col_type) = false /\
      lookup df c = Some series /\
      In None (values series).
Proof.
  intros df schema c H. apply for_each_raise_inv in H.
  destruct H as (pre & [name col_type] & post & -> & Hpre & Hitem).
  apply polars_check_column_raise_cases in Hitem; simpl in Hitem.
  destruct Hitem as [[He Hc] | [Hc Ht]]; [discriminate|].
  destruct (_extract_type_and_validators col_type) as [[b vs] o] eqn:Hex.
  apply (polars_check_column_type_raise _ _ _ _ _ _ _ Hex) in Ht.
  destruct Ht as [Ht | [Ht | [Ht | [Ht | (series & v & _ & _ & Hv)]]]];
    try wrong_error.
  - destruct Ht as (series & Hl & He & Ho & Hn). injection He as <-.
    exists col_type, series. rewrite Hex. repeat split; auto using in_elt.
    destruct (in_dec cell_eq_dec None (values series)) as [Hin|Hnot];
      [exact Hin|].
    apply missing_none in Hnot. unfold Polars.null_count in Hn. lia.
  - apply polars_validator_raise_cases in Hv. wrong_error.
Qed.

Lemma polars_null_error_is_truthful_witness :
  exists col_type series,
    In ("a", col_type) (@Examples.SimpleSchema pl.DataTypeClass) /\
    snd (_extract_type_and_validators col_type) = false /\
    lookup Examples.pl_int_with_null "a" = Some series /\
    In None (values series).
Proof.
  apply (polars_null_error_is_truthful Examples.pl_int_with_null
           Examples.SimpleSchema "a").
  reflexivity.
Defined.

(** X8. A dtype-mismatch error names a declared column, the base type of its
    declaration and the dtype that the column has in the table, and that
    dtype is not compatible with that base type.  This holds in both
    backends. *)
Theorem dtype_error_is_truthful :
  (forall (pd : Pandas.Api) (df : DataFrame Pandas.Dtype)
          (schema : Typing.schema Pandas.ExtensionDtype) (c : string)
          (base_type : Pandas.annotation) (d : Pandas.Dtype),
      Pandas.validate_dataframe df schema
      = Raise (TypeError (Expected_got c base_type d)) ->
      exists col_type validators is_optional series,
        In (c, col_type) schema /\
        _extract_type_and_validators col_type
        = (base_type, validators, is_optional) /\
        lookup df c = Some series /\ dtype series = d /\
        ~ pandas_compatible base_type is_optional series) /\
  (forall (df : Polars.DataFrame) (schema : Polars.schema) (c : string)
          (base_type : Polars.annotation) (d : pl.DataType),
      Polars.validate_dataframe df schema
      = Raise (TypeError (Expected_got c base_type d)) ->
      exists col_type validators is_optional series,
        In (c, col_type) schema /\
        _extract_type_and_validators col_type
        = (base_type, validators, is_optional) /\
        lookup df c = Some series /\ dtype series = d /\
        ~ polars_compatible base_type d).
Proof.
  split.
  - intros pd df schema c base_type d H. apply for_each_raise_inv in H.
    destruct H as (pre & [name col_type] & post & -> & Hpre & Hitem).
    apply pandas_check_column_raise_cases in Hitem; simpl in Hitem.
    destruct Hitem as [[He Hc] | [Hc Ht]]; [discriminate|].
    destruct (_extract_type_and_validators col_type) as [[b vs] o] eqn:Hex.
    apply (pandas_check_column_type_raise _ _ _ _ _ _ _ Hex) in Ht.
    destruct Ht as [Ht | [Ht | [Ht | (series & v & _ & _ & Hv)]]];
      try wrong_error.
    + destruct Ht as (series & Hl & [He | (ext & _ & He)] & Hn);
        [|discriminate].
      injection He as Hc' Hb Hd; subst.
      exists col_type, vs, o, series. repeat split; auto using in_elt.
    + apply pandas_validator_raise_cases in Hv. wrong_error.
  - intros df schema c base_type d H. apply for_each_raise_inv in H.
    destruct H as (pre & [name col_type] & post & -> & Hpre & Hitem).
    apply polars_check_column_raise_cases in Hitem; simpl in Hitem.
    destruct Hitem as [[He Hc] | [Hc Ht]]; [discriminate|].
    destruct (_extract_type_and_validators col_type) as [[b vs] o] eqn:Hex.
    apply (polars_check_column_type_raise _ _ _ _ _ _ _ Hex) in Ht.
    destruct Ht as [Ht | [Ht | [Ht | [Ht | (series & v & _ & _ & Hv)]]]];
      try wrong_error.
    + destruct Ht as (series & Hl & He & Hn). injection He as Hc' Hb Hd; subst.
      exists col_type, vs, o, series. repeat split; auto using in_elt.
    + apply polars_validator_raise_cases in Hv. wrong_error.
Qed.

Lemma dtype_error_is_truthful_witness :
  exists col_type validators is_optional series,
    In ("a", col_type) (@Examples.SimpleSchema pl.DataTypeClass) /\
    _extract_type_and_validators col_type
    = (Class py_int, validators, is_optional) /\
    lookup Examples.pl_letters "a" = Some series /\
    dtype series = pl.plain pl.Utf8 /\
    ~ polars_compatible (Class py_int) (pl.plain pl.Utf8).
Proof.
  apply (proj2 dtype_error_is_truthful Examples.pl_letters
           Examples.SimpleSchema "a").
  reflexivity.
Defined.

(** X9. A range error names a declared column that carries a [Range] with the
    bounds reported, and the column does hold a number outside these
    bounds.  This holds in both backends. *)
Theorem range_error_is_truthful :
  (forall (pd : Pandas.Api) (df : DataFrame Pandas.Dtype)
          (schema : Typing.schema Pandas.ExtensionDtype) (c : string) (lo hi : Z),
      Pandas.validate_dataframe df schema
      = Raise (ValueError (Must_be_in_range c lo hi)) ->
      exists col_type series,
        In (c, col_type) schema /\
        In (IsRange (mkRange lo hi))
           (snd (fst (_extract_type_and_validators col_type))) /\
        lookup df c = Some series /\
        exists z, In (Some (Num z)) (values series) /\ (z < lo \/ hi < z)) /\
  (forall (df : Polars.DataFrame) (schema : Polars.schema) (c : string)
          (lo hi : Z),
      Polars.validate_dataframe df schema
      = Raise (ValueError (Must_be_in_range c lo hi)) ->
      exists col_type series,
        In (c, col_type) schema /\
        In (IsRange (mkRange lo hi))
           (snd (fst (_extract_type_and_validators col_type))) /\
        lookup df c = Some series /\
        exists z, In (Some (Num z)) (values series) /\ (z < lo \/ hi < z)).
Proof.
  split.
  - intros pd df schema c lo hi H. apply for_each_raise_inv in H.
    destruct H as (pre & [name col_type] & post & -> & Hpre & Hitem).
    apply pandas_check_column_raise_cases in Hitem; simpl in Hitem.
    destruct Hitem as [[He Hc] | [Hc Ht]]; [discriminate|].
    destruct (_extract_type_and_validators col_type) as [[b vs] o] eqn:Hex.
    apply (pandas_check_column_type_raise _ _ _ _ _ _ _ Hex) in Ht.
    destruct Ht as [Ht | [Ht | [Ht | (series & v & Hl & Hv & Hraise)]]];
      try wrong_error.
    apply pandas_validator_raise_cases in Hraise.
    destruct Hraise as [(r & -> & [(He & z & Hz & Hb) | Hk]) | Hk];
      try wrong_error.
    injection He as Hn Hlo Hhi; subst.
    exists col_type, series. rewrite Hex; simpl.
    destruct r as [lo hi]; simpl in *.
    repeat split; eauto using in_elt.
  - intros df schema c lo hi H. apply for_each_raise_inv in H.
    destruct H as (pre & [name col_type] & post & -> & Hpre & Hitem).
    apply polars_check_column_raise_cases in Hitem; simpl in Hitem.
    destruct Hitem as [[He Hc] | [Hc Ht]]; [discriminate|].
    destruct (_extract_type_and_validators col_type) as [[b vs] o] eqn:Hex.
    apply (polars_check_column_type_raise _ _ _ _ _ _ _ Hex) in Ht.
    destruct Ht as [Ht | [Ht | [Ht | [Ht | (series & v & Hl & Hv & Hraise)]]]];
      try wrong_error.
    apply polars_validator_raise_cases in Hraise.
    destruct Hraise as [(r & -> & [(He & z & Hz & Hb) | Hk]) | Hk];
      try wrong_error.
    injection He as Hn Hlo Hhi; subst.
    exists col_type, series. rewrite Hex; simpl.
    destruct r as [lo hi]; simpl in *.
    repeat split; eauto using in_elt.
Qed.

Lemma range_error_is_truthful_witness :
  exists col_type series,
    In ("age", col_type) (@Examples.AgeSchema pl.DataTypeClass) /\
    In (IsRange (mkRange 0 150))
       (snd (fst (_extract_type_and_validators col_type))) /\
    lookup [("age", mkSeries (pl.plain pl.Int64) (numbers [Some 25; Some 200]))]
           "age" = Some series /\
    exists z, In (Some (Num z)) (values series) /\ (z < 0 \/ 150 < z).
Proof.
  apply (proj2 range_error_is_truthful
           [("age", mkSeries (pl.plain pl.Int64) (numbers [Some 25; Some 200]))]
           Examples.AgeSchema "age" 0 150).
  reflexivity.
Defined.

(** X10. A duplicate-values error names a declared column that carries a
    [Unique], and two entries of the column are equal.  This holds in
    both backends. *)
Theorem duplicate_error_is_truthful :
  (forall (pd : Pandas.Api) (df : DataFrame Pandas.Dtype)
          (schema : Typing.schema Pandas.ExtensionDtype) (c : string),
      Pandas.validate_dataframe df schema
      = Raise (ValueError (Duplicate_values c)) ->
      exists col_type series,
        In (c, col_type) schema /\
        In Unique (snd (fst (_extract_type_and_validators col_type))) /\
        lookup df c = Some series /\
        ~ NoDup (values series)) /\
  (forall (df : Polars.DataFrame) (schema : Polars.schema) (c : string),
      Polars.validate_dataframe df schema
      = Raise (ValueError (Duplicate_values c)) ->
      exists col_type series,
        In (c, col_type) schema /\
        In Unique (snd (fst (_extract_type_and_validators col_type))) /\
        lookup df c = Some series /\
        ~ NoDup (values series)).
Proof.
  split.
  - intros pd df schema c H. apply for_each_raise_inv in H.
    destruct H as (pre & [name col_type] & post & -> & Hpre & Hitem).
    apply pandas_check_column_raise_cases in Hitem; simpl in Hitem.
    destruct Hitem as [[He Hc] | [Hc Ht]]; [discriminate|].
    destruct (_extract_type_and_validators col_type) as [[b vs] o] eqn:Hex.
    apply (pandas_check_column_type_raise _ _ _ _ _ _ _ Hex) in Ht.
    destruct Ht as [Ht | [Ht | [Ht | (series & v & Hl & Hv & Hraise)]]];
      try wrong_error.
    apply pandas_validator_raise_cases in Hraise.
    destruct Hraise as [Hk | [(-> & He & Hd) | Hk]]; try wrong_error.
    injection He as Hn; subst.
    exists col_type, series. rewrite Hex; simpl.
    repeat split; eauto using in_elt.
  - intros df schema c H. apply for_each_raise_inv in H.
    destruct H as (pre & [name col_type] & post & -> & Hpre & Hitem).
    apply polars_check_column_raise_cases in Hitem; simpl in Hitem.
    destruct Hitem as [[He Hc] | [Hc Ht]]; [discriminate|].
    destruct (_extract_type_and_validators col_type) as [[b vs] o] eqn:Hex.
    apply (polars_check_column_type_raise _ _ _ _ _ _ _ Hex) in Ht.
    destruct Ht as [Ht | [Ht | [Ht | [Ht | (series & v & Hl & Hv & Hraise)]]]];
      try wrong_error.
    apply polars_validator_raise_cases in Hraise.
    destruct Hraise as [Hk | [(-> & He & Hd) | Hk]]; try wrong_error.
    injection He as Hn; subst.
    exists col_type, series. rewrite Hex; simpl.
    repeat split; eauto using in_elt.
Qed.

Lemma duplicate_error_is_truthful_witness :
  exists col_type series,
    In ("user_id", col_type) (@Examples.UserSchema pl.DataTypeClass) /\
    In Unique (snd (fst (_extract_type_and_validators col_type))) /\
    lookup [("user_id", mkSeries (pl.plain pl.Int64) (numbers [Some 1; Some 1]))]
           "user_id" = Some series /\
    ~ NoDup (values series).
Proof.
  apply (proj2 duplicate_error_is_truthful
           [("user_id", mkSeries (pl.plain pl.Int64) (numbers [Some 1; Some 1]))]
           Examples.UserSchema "user_id").
  reflexivity.
Defined.

(* ===================================================================== *)
(** ** Further properties: the verdict of a value validator *)
(* ===================================================================== *)

Lemma pandas_returns_iff_satisfied {pd : Pandas.Api}
    (series : Series Pandas.Dtype) (v : validator) (col_name : string) :
  Pandas.apply_validator series v col_name = Return tt <->
  satisfied (values series) v.
Proof.
  split; [apply pandas_returns_satisfied | apply pandas_satisfied_returns].
Qed.

Lemma polars_returns_iff_satisfied
    (series : Polars.Series) (v : validator) (col_name : string) :
  Polars.apply_validator series v col_name = Return tt <->
  satisfied (values series) v.
Proof.
  split; [apply polars_returns_satisfied | apply polars_satisfied_returns].
Qed.

(** X11. The two backends reach the same verdict on the same entries, for
    every validator: both return, or both raise the range error, or both
    raise the duplicate-values error, or both raise the unknown-validator
    error, or both let through the comparison error of their library. *)
Theorem backends_agree_on_validators :
  forall (pd : Pandas.Api) (d : Pandas.Dtype) (d' : pl.DataType)
         (cells : list cell) (v : validator) (c : string),
    let pandas_result := Pandas.apply_validator (mkSeries d cells) v c in
    let polars_result := Polars.apply_validator (mkSeries d' cells) v c in
    (pandas_result = Return tt <-> polars_result = Return tt) /\
    (forall lo hi,
        pandas_result = Raise (ValueError (Must_be_in_range c lo hi)) <->
        polars_result = Raise (ValueError (Must_be_in_range c lo hi))) /\
    (pandas_result = Raise (ValueError (Duplicate_values c)) <->
     polars_result = Raise (ValueError (Duplicate_values c))) /\
    (pandas_result = Raise (ValueError (Unknown_validator v)) <->
     polars_result = Raise (ValueError (Unknown_validator v))) /\
    (pandas_result = Raise (LibraryError Not_comparable) <->
     polars_result = Raise (LibraryError Not_comparable)).
Proof.
  intros pd d d' cells v c pandas_result polars_result.
  subst pandas_result polars_result.
  destruct v as [r| |name hashable].
  - simpl. destruct (numbers_or_text cells) as [[entries ->] | [s Hs]].
    + destruct (pandas_validate_range_numbers d entries r c) as [Hp1 Hp2].
      destruct (polars_validate_range_numbers d' entries r c) as [Hq1 Hq2].
      assert (Hp : forall e,
        Pandas._validate_range (mkSeries d (numbers entries)) r c = Raise e ->
        e = ValueError (Must_be_in_range c (min r) (max r))).
      { intros e He.
        apply (pandas_validator_raise_cases _ (IsRange r)) in He.
        destruct He as [(r' & Hr & [[He _] | [_ [s Hs]]]) | [[Hk _] | (n & h & Hk & _)]];
          try discriminate.
        - injection Hr as <-. exact He.
        - elim (numbers_no_text _ _ Hs). }
      assert (Hq : forall e,
        Polars._validate_range (mkSeries d' (numbers entries)) r c = Raise e ->
        e = ValueError (Must_be_in_range c (min r) (max r))).
      { intros e He.
        apply (polars_validator_raise_cases _ (IsRange r)) in He.
        destruct He as [(r' & Hr & [[He _] | [_ [s Hs]]]) | [[Hk _] | (n & h & Hk & _)]];
          try discriminate.
        - injection Hr as <-. exact He.
        - elim (numbers_no_text _ _ Hs). }
      split; [rewrite Hp2, Hq2; tauto|].
      split.
      { intros lo hi. split; intros H.
        - pose proof (Hp _ H) as He. injection He as -> ->.
          apply Hq1. now apply Hp1.
        - pose proof (Hq _ H) as He. injection He as -> ->.
          apply Hp1. now apply Hq1. }
      repeat split; intros H;
        first [apply Hp in H | apply Hq in H]; discriminate.
    + rewrite (pandas_validate_range_text (mkSeries d cells) r c s Hs).
      rewrite (polars_validate_range_text (mkSeries d' cells) r c s Hs).
      repeat split; intros; try discriminate; reflexivity.
  - simpl.
    destruct (pandas_validate_unique_spec (mkSeries d cells) c) as [Hp1 Hp2].
    destruct (polars_validate_unique_spec (mkSeries d' cells) c) as [Hq1 Hq2].
    simpl in *.
    split; [rewrite Hp1, Hq1; tauto|].
    split.
    { intros lo hi. unfold Pandas._validate_unique, Polars._validate_unique.
      destruct (Frames.any (Pandas.duplicated (mkSeries d cells))),
               (Frames.any (Polars.is_duplicated (mkSeries d' cells)));
        split; intros H; discriminate H. }
    split; [rewrite Hp2, Hq2; tauto|].
    unfold Pandas._validate_unique, Polars._validate_unique.
    destruct (Frames.any (Pandas.duplicated (mkSeries d cells))),
             (Frames.any (Polars.is_duplicated (mkSeries d' cells)));
      repeat split; intros H; discriminate H.
  - simpl. repeat split; intros; try discriminate; reflexivity.
Qed.

(** X12. Widening the bounds of a [Range], or removing entries from the
    column, never turns a pass into a failure, in both backends. *)
Theorem range_is_monotone :
  forall (pd : Pandas.Api) (d : Pandas.Dtype) (d' : pl.DataType)
         (cells cells' : list cell) (r r' : Range) (c : string),
    min r' <= min r -> max r <= max r' -> incl cells' cells ->
    (Pandas.apply_validator (mkSeries d cells) (IsRange r) c = Return tt ->
     Pandas.apply_validator (mkSeries d cells') (IsRange r') c = Return tt) /\
    (Polars.apply_validator (mkSeries d' cells) (IsRange r) c = Return tt ->
     Polars.apply_validator (mkSeries d' cells') (IsRange r') c = Return tt).
Proof.
  intros pd d d' cells cells' r r' c Hlo Hhi Hincl.
  assert (Hsat : satisfied cells (IsRange r) -> satisfied cells' (IsRange r')).
  { intros H x Hx. destruct (H x (Hincl _ Hx)) as (z & -> & Hb).
    exists z. split; [reflexivity | lia]. }
  split; intros H.
  - apply pandas_returns_iff_satisfied. apply Hsat.
    now apply pandas_returns_iff_satisfied in H.
  - apply polars_returns_iff_satisfied. apply Hsat.
    now apply polars_returns_iff_satisfied in H.
Qed.

Lemma range_is_monotone_witness :
  Polars.apply_validator
    (mkSeries (pl.plain pl.Int64) (numbers [Some 30; None]))
    (IsRange (mkRange (-10) 200)) "age"
  = Return tt.
Proof.
  apply (proj2 (range_is_monotone PandasModel.pandas PandasModel.int64
                  (pl.plain pl.Int64)
                  (numbers [Some 25; None; Some 30]) (numbers [Some 30; None])
                  (mkRange 0 150) (mkRange (-10) 200) "age"
                  ltac:(simpl; lia) ltac:(simpl; lia)
                  ltac:(intros x [<-|[<-|[]]]; simpl; auto))).
  reflexivity.
Defined.

(** X13. A [Range] whose lower bound exceeds its upper bound is passed exactly
    by the columns without any non-null entry, in both backends. *)
Theorem empty_range_accepts_only_nulls :
  forall (pd : Pandas.Api) (d : Pandas.Dtype) (d' : pl.DataType)
         (cells : list cell) (r : Range) (c : string),
    max r < min r ->
    (Pandas.apply_validator (mkSeries d cells) (IsRange r) c = Return tt <->
     non_null cells = []) /\
    (Polars.apply_validator (mkSeries d' cells) (IsRange r) c = Return tt <->
     non_null cells = []).
Proof.
  intros pd d d' cells r c Hr.
  assert (Hsat : satisfied cells (IsRange r) <-> non_null cells = []).
  { split.
    - intros H. destruct (non_null cells) as [|x rest] eqn:Hnn; [reflexivity|].
      assert (Hx : In (Some x) cells) by (apply In_non_null; rewrite Hnn; now left).
      destruct (H x Hx) as (z & _ & Hb). lia.
    - intros Hnn x Hx. apply In_non_null in Hx. rewrite Hnn in Hx. elim Hx. }
  rewrite pandas_returns_iff_satisfied, polars_returns_iff_satisfied.
  simpl. tauto.
Qed.

Lemma empty_range_accepts_only_nulls_witness :
  Polars.apply_validator (mkSeries (pl.plain pl.Int64) (numbers [None; None]))
    (IsRange (mkRange 10 0)) "age" = Return tt <->
  non_null (numbers [None; None]) = [].
Proof.
  apply (proj2 (empty_range_accepts_only_nulls PandasModel.pandas
                  PandasModel.int64 (pl.plain pl.Int64) (numbers [None; None])
                  (mkRange 10 0) "age" ltac:(simpl; lia))).
Defined.

(** X14. The verdict of a validator does not depend on the order of the
    entries of the column: on a permuted column each backend returns
    exactly when it returned before. *)
Theorem validators_ignore_row_order :
  forall (pd : Pandas.Api) (d : Pandas.Dtype) (d' : pl.DataType)
         (cells cells' : list cell) (v : validator) (c : string),
    Permutation cells cells' ->
    (Pandas.apply_validator (mkSeries d cells) v c = Return tt <->
     Pandas.apply_validator (mkSeries d cells') v c = Return tt) /\
    (Polars.apply_validator (mkSeries d' cells) v c = Return tt <->
     Polars.apply_validator (mkSeries d' cells') v c = Return tt).
Proof.
  intros pd d d' cells cells' v c Hperm.
  assert (Hsat : satisfied cells v <-> satisfied cells' v).
  { destruct v as [r| |name hashable]; simpl; [| |tauto].
    - split; intros H x Hx; apply H.
      + exact (Permutation_in _ (Permutation_sym Hperm) Hx).
      + exact (Permutation_in _ Hperm Hx).
    - split; intros H.
      + exact (Permutation_NoDup Hperm H).
      + exact (Permutation_NoDup (Permutation_sym Hperm) H). }
  rewrite !pandas_returns_iff_satisfied, !polars_returns_iff_satisfied.
  simpl. tauto.
Qed.

Lemma validators_ignore_row_order_witness :
  Polars.apply_validator
    (mkSeries (pl.plain pl.Int64) (numbers [Some 1; Some 2])) Unique "user_id"
  = Return tt <->
  Polars.apply_validator
    (mkSeries (pl.plain pl.Int64) (numbers [Some 2; Some 1])) Unique "user_id"
  = Return tt.
Proof.
  apply (proj2 (validators_ignore_row_order PandasModel.pandas PandasModel.int64
                  (pl.plain pl.Int64) (numbers [Some 1; Some 2])
                  (numbers [Some 2; Some 1]) Unique "user_id"
                  (perm_swap _ _ _))).
Defined.

(* ===================================================================== *)
(** ** Further properties: declarations *)
(* ===================================================================== *)

(** X15. The order of the two members of an optional union is immaterial:
    [Union[T, None]] and [Union[None, T]] decompose alike, bare or under
    a metadata wrapper. *)
Theorem optional_member_order_is_immaterial :
  forall (native : Type) (T : annotation native) (metadata : list validator),
    _extract_type_and_validators (Union [Class NoneType; T])
    = _extract_type_and_validators (Union [T; Class NoneType]) /\
    _extract_type_and_validators (Union [T; Class NoneType]) = (T, [], true) /\
    _extract_type_and_validators (Annotated (Union [Class NoneType; T]) metadata)
    = _extract_type_and_validators (Annotated (Union [T; Class NoneType]) metadata) /\
    _extract_type_and_validators (Annotated (Union [T; Class NoneType]) metadata)
    = (T, metadata, true).
Proof.
  intros native T metadata. destruct T as [[]| | | |]; repeat split.
Qed.

(** The nullable flag is set for two-member unions with [None] only: the
    decomposition of any other union is the union itself, not nullable,
    also when [None] is among three or more members. *)
Lemma wider_union_is_not_decomposed (native : Type)
    (args : list (annotation native)) (metadata : list validator) :
  List.length args <> 2%nat \/ existsb is_NoneType args = false ->
  _extract_type_and_validators (Union args) = (Union args, [], false) /\
  _extract_type_and_validators (Annotated (Union args) metadata)
  = (Union args, metadata, false).
Proof.
  intros H. unfold _extract_type_and_validators.
  destruct args as [|a0 [|a1 [|a2 rest]]]; simpl; try (split; reflexivity).
  destruct H as [H|H]; [now elim H|].
  simpl in H. rewrite orb_false_r in H. rewrite H. split; reflexivity.
Qed.

(** X16. A column declared by a union that is not a two-member union with
    [None] (for instance [Union[int, str]] or [Union[int, str, None]]) is
    rejected whatever the table holds: the union is no key of
    [TYPE_CHECKERS].  This holds in both backends. *)
Theorem wider_union_is_rejected :
  (forall (pd : Pandas.Api) (df : DataFrame Pandas.Dtype) (c : string)
          (args : list Pandas.annotation) (metadata : list validator),
      List.length args <> 2%nat \/ existsb is_NoneType args = false ->
      Pandas._check_column_type df c (Union args)
      = Raise (not_in_TYPE_CHECKERS (Union args)) /\
      Pandas._check_column_type df c (Annotated (Union args) metadata)
      = Raise (not_in_TYPE_CHECKERS (Union args))) /\
  (forall (df : Polars.DataFrame) (c : string)
          (args : list Polars.annotation) (metadata : list validator),
      List.length args <> 2%nat \/ existsb is_NoneType args = false ->
      Polars._check_column_type df c (Union args)
      = Raise (not_in_TYPE_CHECKERS (Union args)) /\
      Polars._check_column_type df c (Annotated (Union args) metadata)
      = Raise (not_in_TYPE_CHECKERS (Union args))).
Proof.
  split.
  - intros pd df c args metadata H.
    destruct (wider_union_is_not_decomposed _ args metadata H) as [H1 H2].
    unfold Pandas._check_column_type. rewrite H1, H2. split; reflexivity.
  - intros df c args metadata H.
    destruct (wider_union_is_not_decomposed _ args metadata H) as [H1 H2].
    unfold Polars._check_column_type. rewrite H1, H2. split; reflexivity.
Qed.

Lemma wider_union_is_rejected_witness :
  Polars._check_column_type Examples.pl_users "user_id"
    (Union [Class py_int; Class py_str; Class NoneType])
  = Raise (ValueError
             (Unsupported_type (Union [Class py_int; Class py_str; Class NoneType]))).
Proof.
  assert (H : List.length
                [@Class pl.DataTypeClass py_int; Class py_str; Class NoneType]
              <> 2%nat \/
              existsb is_NoneType
                [@Class pl.DataTypeClass py_int; Class py_str; Class NoneType]
              = false).
  { left. simpl. lia. }
  exact (proj1 (proj2 wider_union_is_rejected Examples.pl_users "user_id"
                  [Class py_int; Class py_str; Class NoneType] [] H)).
Defined.

(** X17. Marking a declaration optional never turns a pass into a failure: a
    column that passes its check under [T] or [Annotated[T, ...]], for a
    class or dtype class [T], passes it under [Optional[T]] or
    [Annotated[Optional[T], ...]].  This holds in both backends. *)
Theorem optional_never_hurts :
  (forall (pd : Pandas.Api) (df : DataFrame Pandas.Dtype) (c : string)
          (T : Pandas.annotation) (metadata : list validator),
      is_concrete T = true ->
      (Pandas.check_column df (c, T) = Return tt ->
       Pandas.check_column df (c, Optional T) = Return tt) /\
      (Pandas.check_column df (c, Annotated T metadata) = Return tt ->
       Pandas.check_column df (c, Annotated (Optional T) metadata) = Return tt)) /\
  (forall (df : Polars.DataFrame) (c : string)
          (T : Polars.annotation) (metadata : list validator),
      is_concrete T = true ->
      (Polars.check_column df (c, T) = Return tt ->
       Polars.check_column df (c, Optional T) = Return tt) /\
      (Polars.check_column df (c, Annotated T metadata) = Return tt ->
       Polars.check_column df (c, Annotated (Optional T) metadata) = Return tt)).
Proof.
  split.
  - intros pd df c T metadata HT.
    assert (Hc : forall o series,
      pandas_compatible T false series -> pandas_compatible T o series).
    { intros o series [H | (chk & Hchk & [H | [(Ho & _) | (Ho & _)]])];
        try discriminate; [left; exact H | right; eauto]. }
    rewrite !pandas_conforms_iff. unfold pandas_conforms; simpl.
    destruct T as [[]|n| | |]; try discriminate HT; simpl;
      (split; intros (series & Hl & Hcompat & Hv); exists series;
       repeat split; auto).
  - intros df c T metadata HT.
    rewrite !polars_accepts_iff. unfold polars_accepts; simpl.
    destruct T as [[]|n| | |]; try discriminate HT; simpl;
      (split; intros (series & Hl & Hcompat & Hn & Hv); exists series;
       repeat split; auto; discriminate).
Qed.

Lemma optional_never_hurts_witness :
  Polars.check_column Examples.pl_users ("user_id", Optional (Class py_int))
  = Return tt.
Proof.
  apply (proj1 (proj2 optional_never_hurts Examples.pl_users "user_id"
                  (Class py_int) [] eq_refl)).
  reflexivity.
Defined.

(** X18. Metadata that is neither a [Range] nor a [Unique] makes validation
    fail: a table is never accepted under a schema in which the
    decomposition of some declaration lists such an item.  This holds in
    both backends. *)
Theorem unrecognized_metadata_is_never_accepted :
  (forall (pd : Pandas.Api) (df : DataFrame Pandas.Dtype)
          (schema : Typing.schema Pandas.ExtensionDtype)
          (c : string) (col_type : Pandas.annotation) (name : string) (h : bool),
      In (c, col_type) schema ->
      In (Unrecognized name h)
         (snd (fst (_extract_type_and_validators col_type))) ->
      Pandas.validate_dataframe df schema <> Return tt) /\
  (forall (df : Polars.DataFrame) (schema : Polars.schema)
          (c : string) (col_type : Polars.annotation) (name : string) (h : bool),
      In (c, col_type) schema ->
      In (Unrecognized name h)
         (snd (fst (_extract_type_and_validators col_type))) ->
      Polars.validate_dataframe df schema <> Return tt).
Proof.
  split.
  - intros pd df schema c col_type name h Hitem Hmeta H.
    apply pandas_validate_returns_iff in H. rewrite Forall_forall in H.
    specialize (H _ Hitem). unfold pandas_conforms in H; simpl in H.
    destruct (_extract_type_and_validators col_type) as [[b vs] o].
    destruct H as (series & _ & _ & Hv). rewrite Forall_forall in Hv.
    exact (Hv _ Hmeta).
  - intros df schema c col_type name h Hitem Hmeta H.
    apply polars_validate_returns_iff in H. rewrite Forall_forall in H.
    specialize (H _ Hitem). unfold polars_accepts in H; simpl in H.
    destruct (_extract_type_and_validators col_type) as [[b vs] o].
    destruct H as (series & _ & _ & _ & Hv). rewrite Forall_forall in Hv.
    exact (Hv _ Hmeta).
Qed.

Lemma unrecognized_metadata_is_never_accepted_witness :
  Polars.validate_dataframe Examples.pl_users
    [("user_id", Annotated (Class py_int) [Unrecognized "str" true])]
  <> Return tt.
Proof.
  apply (proj2 unrecognized_metadata_is_never_accepted Examples.pl_users _
           "user_id" (Annotated (Class py_int) [Unrecognized "str" true])
           "str" true).
  - left. reflexivity.
  - left. reflexivity.
Defined.

(* ===================================================================== *)
(** ** Further properties: the dtype tables *)
(* ===================================================================== *)

(** X19. The pandas backend does not tell [date] from [datetime]: both are
    checked by [is_datetime64_any_dtype], so a column passes its check
    under one declaration exactly when it passes under the other, bare,
    optional or with metadata. *)
Theorem pandas_date_is_datetime :
  forall (pd : Pandas.Api) (df : DataFrame Pandas.Dtype) (c : string)
         (metadata : list validator),
    (Pandas.check_column df (c, Class py_date) = Return tt <->
     Pandas.check_column df (c, Class py_datetime) = Return tt) /\
    (Pandas.check_column df (c, Optional (Class py_date)) = Return tt <->
     Pandas.check_column df (c, Optional (Class py_datetime)) = Return tt) /\
    (Pandas.check_column df (c, Annotated (Class py_date) metadata) = Return tt <->
     Pandas.check_column df (c, Annotated (Class py_datetime) metadata)
     = Return tt) /\
    (Pandas.check_column df (c, Annotated (Optional (Class py_date)) metadata)
     = Return tt <->
     Pandas.check_column df (c, Annotated (Optional (Class py_datetime)) metadata)
     = Return tt).
Proof.
  intros pd df c metadata.
  unfold Pandas.check_column, Pandas._check_column_exists,
    Pandas._check_column_type, Pandas.check_dtype, getitem; simpl.
  destruct (contains (columns df) c); simpl; [|repeat split; discriminate].
  destruct (lookup df c) as [series|]; simpl; [|repeat split; discriminate].
  destruct (Pandas.is_datetime64_any_dtype (Pandas.arr series)); simpl;
    repeat split; auto; discriminate.
Qed.

(** X20. In the polars backend the checkers of [int], [float], [str], [bool],
    [date] and [timedelta] are pairwise disjoint: no dtype satisfies two
    of these base types.  (The checker of [datetime] is the exception: it
    also accepts what carries a time unit.) *)
Theorem polars_checkers_are_disjoint :
  forall (k1 k2 : pyclass) (chk1 chk2 : pl.DataType -> bool) (d : pl.DataType),
    k1 <> py_datetime -> k2 <> py_datetime -> k1 <> k2 ->
    Polars.TYPE_CHECKERS (Class k1) = Some chk1 ->
    Polars.TYPE_CHECKERS (Class k2) = Some chk2 ->
    chk1 d = true -> chk2 d = false.
Proof.
  intros k1 k2 chk1 chk2 [cls tu tz] H1 H2 H3 Hc1 Hc2.
  destruct k1; simpl in Hc1; try discriminate; try (now elim H1);
    injection Hc1 as <-;
    destruct k2; simpl in Hc2; try discriminate; try (now elim H2);
    try (now elim H3);
    injection Hc2 as <-;
    destruct cls; cbv; intros; congruence.
Qed.

Lemma polars_checkers_are_disjoint_witness :
  pl.equals (pl.plain pl.Int64) pl.Utf8 = false.
Proof.
  apply (polars_checkers_are_disjoint py_int py_str _ _ (pl.plain pl.Int64)
           ltac:(discriminate) ltac:(discriminate) ltac:(discriminate)
           eq_refl eq_refl eq_refl).
Defined.

(** X21. In the polars backend a column declared by a polars dtype class is
    accepted on its dtype alone: when the column is present and no
    validator is attached, its check returns exactly when its dtype is an
    instance of the class, whether or not the column holds nulls and
    whether or not the declaration is optional. *)
Theorem polars_native_dtype_allows_nulls :
  forall (df : Polars.DataFrame) (c : string) (cls : pl.DataTypeClass)
         (series : Polars.Series),
    lookup df c = Some series ->
    (Polars.check_column df (c, Native cls) = Return tt <->
     pl.equals (dtype series) cls = true) /\
    (Polars.check_column df (c, Optional (Native cls)) = Return tt <->
     pl.equals (dtype series) cls = true).
Proof.
  intros df c cls series Hl.
  unfold Polars.check_column, Polars._check_column_exists,
    Polars._check_column_type, getitem; simpl.
  rewrite (lookup_contains _ _ _ Hl), Hl; simpl.
  destruct (pl.equals (dtype series) cls); simpl;
    repeat split; auto; discriminate.
Qed.

Lemma polars_native_dtype_allows_nulls_witness :
  Polars.check_column Examples.pl_int_with_null ("a", Native pl.Int64) = Return tt.
Proof.
  apply (proj1 (polars_native_dtype_allows_nulls Examples.pl_int_with_null "a"
                  pl.Int64 _ eq_refl)).
  reflexivity.
Defined.

(** X22. The validators of a column run in the order of the metadata list and
    the first that fails is the one reported: when the column is present,
    passes the dtype test (and, in polars, the null test) and satisfies
    the validators listed before [v], the error that [v] raises is the
    outcome of the column check, whatever is listed after [v].  This
    holds in both backends. *)
Theorem first_failing_validator_is_reported :
  (forall (pd : Pandas.Api) (df : DataFrame Pandas.Dtype) (c : string)
          (col_type base_type : Pandas.annotation) (is_optional : bool)
          (pre post : list validator) (v : validator)
          (series : Series Pandas.Dtype) (e : Pandas.exn),
      _extract_type_and_validators col_type
      = (base_type, pre ++ v :: post, is_optional) ->
      lookup df c = Some series ->
      pandas_compatible base_type is_optional series ->
      Forall (satisfied (values series)) pre ->
      Pandas.apply_validator series v c = Raise e ->
      Pandas._check_column_type df c col_type = Raise e) /\
  (forall (df : Polars.DataFrame) (c : string)
          (col_type base_type : Polars.annotation) (is_optional : bool)
          (pre post : list validator) (v : validator)
          (series : Polars.Series) (e : Polars.exn),
      _extract_type_and_validators col_type
      = (base_type, pre ++ v :: post, is_optional) ->
      lookup df c = Some series ->
      polars_compatible base_type (dtype series) ->
      (is_optional = false -> Polars.null_count series = 0%nat) ->
      Forall (satisfied (values series)) pre ->
      Polars.apply_validator series v c = Raise e ->
      Polars._check_column_type df c col_type = Raise e).
Proof.
  split.
  - intros pd df c col_type base_type is_optional pre post v series e
      Hex Hl Hcompat Hpre Hv.
    assert (Hloop :
      for_each (fun v => Pandas.apply_validator series v c) (pre ++ v :: post)
      = Raise e).
    { apply for_each_first_raise; [|exact Hv].
      revert Hpre. apply Forall_impl. intros w. apply pandas_satisfied_returns. }
    destruct Hcompat as [(ext & -> & Hext) | (chk & Hchk & Hok)].
    + unfold Pandas._check_column_type. rewrite Hex. unfold getitem.
      rewrite Hl; simpl. rewrite Hext; simpl. exact Hloop.
    + rewrite (pandas_check_supported_type _ _ _ _ _ _ _ Hex Hchk).
      unfold getitem. rewrite Hl; simpl.
      replace (Pandas.check_dtype chk series c base_type is_optional)
        with (@Return Pandas.exn unit tt); [exact Hloop|].
      unfold Pandas.check_dtype.
      destruct (chk (Pandas.arr series)); simpl; [reflexivity|].
      destruct Hok as [Hok | [(-> & -> & Hfloat) | (-> & ->)]];
        [discriminate | simpl; rewrite Hfloat; reflexivity | reflexivity].
  - intros df c col_type base_type is_optional pre post v series e
      Hex Hl Hcompat Hnull Hpre Hv.
    assert (Hloop :
      for_each (fun v => Polars.apply_validator series v c) (pre ++ v :: post)
      = Raise e).
    { apply for_each_first_raise; [|exact Hv].
      revert Hpre. apply Forall_impl. intros w. apply polars_satisfied_returns. }
    destruct Hcompat as [(cls & -> & Hcls) | (chk & Hchk & Hok)].
    + unfold Polars._check_column_type. rewrite Hex. unfold getitem.
      rewrite Hl; simpl. rewrite Hcls; simpl. exact Hloop.
    + rewrite (polars_check_supported_type _ _ _ _ _ _ _ Hex Hchk).
      unfold getitem. rewrite Hl; simpl. rewrite Hok; simpl.
      destruct is_optional; simpl; [exact Hloop|].
      rewrite (Hnull eq_refl); simpl. exact Hloop.
Qed.

Lemma first_failing_validator_is_reported_witness :
  Polars._check_column_type
    [("age", mkSeries (pl.plain pl.Int64) (numbers [Some 200; Some 200]))]
    "age"
    (Annotated (Class py_int) ([] ++ IsRange (mkRange 0 150) :: [Unique]))
  = Raise (ValueError (Must_be_in_range "age" 0 150)).
Proof.
  eapply (proj2 first_failing_validator_is_reported).
  - reflexivity.
  - reflexivity.
  - right. eexists. split; reflexivity.
  - reflexivity.
  - apply Forall_nil.
  - reflexivity.
Defined.

(* ===================================================================== *)
(** ** Further properties: the dtype of an empty column *)
(* ===================================================================== *)


